(** * Ingestion routing and report publishing: a shallow embedding

    The development follows [src/webapp/main.py] and the three cloud
    functions under [src/functions/].  Python values are modelled as follows.

    - [str] is [string]; a character is an 8-bit code point.  The only place
      where the source case-maps arbitrary text is [f.name.lower()], and on
      code points below 256 [str.lower] is the map [lower_char] below.
      [str.upper] is applied by the source only to text that already matched
      the identifier pattern, where it is plain ASCII upper-casing.
    - an exception is a value of [exn]; a call that may raise returns a
      [result].
    - the warehouse, the artifact store and the queue are an explicit
      [World] threaded through every operation, together with the record of
      the jobs and messages submitted to them. *)

From Stdlib Require Import String Ascii List ZArith Lia Bool.
From stdpp Require Import base option list gmap strings.

Local Open Scope stdpp_scope.

(** ** Python-level helpers *)

Module Py.

(** Exceptions raised by the modelled code, with their message. *)
Inductive exn : Type :=
| ValueError (msg : string)
| AttributeError (msg : string)
| KeyError (msg : string)
| NotFound (msg : string)
| BadRequest (msg : string)
| OSError (msg : string)
| CalledProcessError (returncode : Z).

Inductive result (A : Type) : Type :=
| Ok (a : A)
| Raise (e : exn).
Arguments Ok {A} a.
Arguments Raise {A} e.

Definition bind {A B : Type} (r : result A) (k : A -> result B) : result B :=
  match r with
  | Ok a => k a
  | Raise e => Raise e
  end.

Definition is_ok {A : Type} (r : result A) : bool :=
  match r with Ok _ => true | Raise _ => false end.

Definition code (a : ascii) : N := N_of_ascii a.

Definition in_range (lo hi : N) (a : ascii) : bool :=
  (lo <=? code a)%N && (code a <=? hi)%N.

Definition is_ascii_upper (a : ascii) : bool := in_range 65 90 a.
Definition is_ascii_lower (a : ascii) : bool := in_range 97 122 a.
Definition is_ascii_digit (a : ascii) : bool := in_range 48 57 a.

(** [str.lower] on one code point below 256: [A-Z] and the Latin-1 capitals
    U+00C0..U+00DE (U+00D7, the multiplication sign, excepted) move up by
    32; everything else is unchanged. *)
Definition lower_char (a : ascii) : ascii :=
  if is_ascii_upper a then ascii_of_N (code a + 32)
  else if in_range 192 222 a && negb (code a =? 215)%N
       then ascii_of_N (code a + 32)
       else a.

(** [str.upper] on one ASCII code point. *)
Definition upper_char (a : ascii) : ascii :=
  if is_ascii_lower a then ascii_of_N (code a - 32) else a.

(** Text is handled as its list of characters. *)
Definition chars (s : string) : list ascii := String.list_ascii_of_string s.
Definition str (l : list ascii) : string := String.string_of_list_ascii l.

Definition lower (s : string) : string := str (map lower_char (chars s)).
Definition upper (s : string) : string := str (map upper_char (chars s)).

(** [s.replace(old, new)] for single-character [old] and [new]. *)
Definition replace_char (old new : ascii) (s : string) : string :=
  str (map (fun a => if Ascii.eqb a old then new else a) (chars s)).

(** [s.endswith(suffix)]. *)
Definition endswith (s suffix : string) : bool :=
  bool_decide (chars suffix `suffix_of` chars s).

Definition LF : ascii := ascii_of_N 10.
Definition newline : string := String LF EmptyString.

(** [sep.join(parts)]. *)
Fixpoint join (sep : string) (parts : list string) : string :=
  match parts with
  | [] => ""
  | [x] => x
  | x :: rest => x +:+ sep +:+ join sep rest
  end.

(** [repr] of a list of plain words (no quote, backslash or control
    character inside): each word between single quotes. *)
Definition repr_word (s : string) : string := "'" +:+ s +:+ "'".
Definition repr_list (l : list string) : string :=
  "[" +:+ join ", " (map repr_word l) +:+ "]".

(** [p.rfind(c)]: the index of the last [c], or -1. *)
Fixpoint rfind_from (c : ascii) (l : list ascii) (i acc : Z) : Z :=
  match l with
  | [] => acc
  | a :: l' => rfind_from c l' (i + 1) (if Ascii.eqb a c then i else acc)
  end.
Definition rfind (c : ascii) (l : list ascii) : Z := rfind_from c l 0 (-1).

Definition dot : ascii := ascii_of_N 46.
Definition slash : ascii := ascii_of_N 47.

(** [os.path.splitext] of [posixpath]: split at the last dot when it comes
    after the last slash and some character between them is not a dot. *)
Definition splitext (p : string) : string * string :=
  let l := chars p in
  let sepIndex := rfind slash l in
  let dotIndex := rfind dot l in
  if (sepIndex <? dotIndex)%Z
     && existsb (fun a => negb (Ascii.eqb a dot))
          (take (Z.to_nat (dotIndex - (sepIndex + 1)))
                (drop (Z.to_nat (sepIndex + 1)) l))
  then (str (take (Z.to_nat dotIndex) l), str (drop (Z.to_nat dotIndex) l))
  else (p, "").

End Py.

Export Py.

#[global] Instance result_ret : MRet result := @Ok.
#[global] Instance result_bind : MBind result :=
  fun A B k r => Py.bind r k.

(** ** The identifier validator *)

Module Validator.

(** The character class [[a-zA-Z0-9_]]. *)
Definition is_word_char (a : ascii) : bool :=
  is_ascii_lower a || is_ascii_upper a || is_ascii_digit a
  || (code a =? 95)%N.

(** Longest prefix of [s] inside the class, at most [fuel] characters, and
    what follows it: the greedy run of a bounded repetition. *)
Fixpoint greedy_run (fuel : nat) (s : list ascii) : nat * list ascii :=
  match fuel, s with
  | S fuel', a :: s' =>
      if is_word_char a
      then let '(k, rest) := greedy_run fuel' s' in (S k, rest)
      else (0, s)
  | _, _ => (0, s)
  end.

(** Python's [$] without [re.MULTILINE]: the end of the text, or just before
    a newline that is the last character of the text. *)
Definition at_dollar (rest : list ascii) : bool :=
  bool_decide (rest = []) || bool_decide (rest = [LF]).

(** [re.match(r'^[a-zA-Z0-9_]{1,128}$', s)] as a truth value.  A newline is
    outside the class, so the only run after which [$] can hold is the
    greedy one. *)
Definition re_match_identifier (s : string) : bool :=
  let '(k, rest) := greedy_run 128 (chars s) in
  (1 <=? k) && at_dollar rest.

Definition sql_keywords : gset string :=
  list_to_set
    ["SELECT"; "INSERT"; "UPDATE"; "DELETE"; "DROP"; "CREATE"; "ALTER";
     "EXEC"; "UNION"; "WHERE"; "JOIN"].

Definition msg_empty : string := "Table name cannot be empty".
Definition msg_invalid : string :=
  "Invalid table name. Only letters, numbers, and underscores allowed (max 128 chars)".
Definition msg_keyword : string := "Table name cannot be a SQL keyword".

Definition validate_table_name (table_name : string) : result string :=
  if String.eqb table_name "" then Raise (ValueError msg_empty)
  else if negb (re_match_identifier table_name)
       then Raise (ValueError msg_invalid)
       else if bool_decide (upper table_name ∈ sql_keywords)
            then Raise (ValueError msg_keyword)
            else Ok table_name.

Definition word (a : ascii) : Prop := is_word_char a = true.

(** The identifier language in the words of the specification: between 1
    and 128 characters, every one a letter, a digit or an underscore. *)
Definition spec_identifier (s : string) : Prop :=
  1 <= length (chars s) <= 128 /\ Forall word (chars s).

(** An error of the kind the validator raises. *)
Definition invalid_identifier (e : exn) : Prop :=
  e = ValueError msg_empty \/ e = ValueError msg_invalid
  \/ e = ValueError msg_keyword.

End Validator.

Export Validator.


(** ** Column role resolution *)

Module Resolver.

(** [bigquery.SchemaField], as far as the resolver reads it. *)
Record SchemaField : Type := { name : string; field_type : string }.

#[global] Instance SchemaField_eq_dec : EqDecision SchemaField.
Proof. solve_decision. Defined.

(** The loop of [_table_schema_cols] over [tbl.schema]: the dictionary
    [{lower_col_name: (original_name, field)}], a later field overwriting an
    earlier one stored under the same key. *)
Definition schema_cols (schema : list SchemaField)
  : gmap string (string * SchemaField) :=
  foldl (fun out f => <[lower (name f) := (name f, f)]> out) ∅ schema.

Definition msg_not_found (candidates : list string) : string :=
  "Could not find any of columns: " +:+ repr_list candidates.

(** The [for] loop of [_pick_column]; a stored pair is always truthy. *)
Fixpoint pick_first (cols : gmap string (string * SchemaField))
    (candidates : list string) : option string :=
  match candidates with
  | [] => None
  | c :: rest =>
      match cols !! lower c with
      | Some got => Some (fst got)
      | None => pick_first cols rest
      end
  end.

Definition _pick_column (cols : gmap string (string * SchemaField))
    (candidates : list string) (required : bool) : result (option string) :=
  match pick_first cols candidates with
  | Some original => Ok (Some original)
  | None =>
      if required then Raise (ValueError (msg_not_found candidates))
      else Ok None
  end.

Definition department_candidates : list string :=
  ["department"; "dept"; "cost_center"; "costcentre"; "cost_centre"].
Definition amount_candidates : list string :=
  ["amount"; "total_amount"; "spend"; "cost"; "value"; "amt"].
Definition date_candidates : list string :=
  ["date"; "txn_date"; "transaction_date"; "post_date"; "doc_date"; "month";
   "period"].
Definition expense_type_candidates : list string :=
  ["expense_type"; "category"; "type"; "gl_code"].

(** The dictionary returned by [_detect_finance_columns]. *)
Record ColumnRoleMap : Type := {
  department : option string;
  amount : option string;
  date : option string;
  expense_type : option string
}.

(** The four picks of [_detect_finance_columns] on the dictionary [cols]. *)
Definition detect_in_cols (cols : gmap string (string * SchemaField))
  : result ColumnRoleMap :=
  department ← _pick_column cols department_candidates true;
  amount ← _pick_column cols amount_candidates true;
  date ← _pick_column cols date_candidates true;
  expense ← _pick_column cols expense_type_candidates false;
  Ok {| department := department; amount := amount; date := date;
        expense_type := expense |}.

(** [_detect_finance_columns] once the schema has been fetched. *)
Definition detect_in_schema (schema : list SchemaField)
  : result ColumnRoleMap :=
  detect_in_cols (schema_cols schema).

(** The semantic roles, for stating what the resolver does. *)
Inductive Role : Type := RDepartment | RAmount | RDate | RExpenseType.

Definition role_name (r : Role) : string :=
  match r with
  | RDepartment => "department"
  | RAmount => "amount"
  | RDate => "date"
  | RExpenseType => "expense_type"
  end.

Definition candidates_of (r : Role) : list string :=
  match r with
  | RDepartment => department_candidates
  | RAmount => amount_candidates
  | RDate => date_candidates
  | RExpenseType => expense_type_candidates
  end.

Definition required_role (r : Role) : bool :=
  match r with RExpenseType => false | _ => true end.


(** A column of [schema] matches candidate [c] when the two names are equal
    up to letter case. *)
Definition matches (c : string) (f : SchemaField) : Prop :=
  lower (name f) = lower c.

Definition has_candidate (schema : list SchemaField) (r : Role) : Prop :=
  exists c f, c ∈ candidates_of r /\ f ∈ schema /\ matches c f.

Definition field (n : string) : SchemaField :=
  {| name := n; field_type := "STRING" |}.

(** The key a field is stored under. *)
Definition key (f : SchemaField) : string := lower (name f).

(** The last field of the schema stored under key [k]. *)
Fixpoint last_named (k : string) (schema : list SchemaField)
  : option SchemaField :=
  match schema with
  | [] => None
  | f :: rest =>
      match last_named k rest with
      | Some g => Some g
      | None => if String.eqb (key f) k then Some f else None
      end
  end.


Definition region_schema : list SchemaField :=
  map field ["region"; "value"; "period"; "category"].

End Resolver.

Export Resolver.

(** ** The collaborators: warehouse, artifact store, queue *)

Module Platform.

Definition Row : Type := list string.

(** A [bigquery.Table] resource: a table, or a view when [view_query] is set. *)
Record Table : Type := {
  schema : list SchemaField;
  view_query : option string;
  rows : list Row
}.

Inductive SourceFormat : Type := CSV | NEWLINE_DELIMITED_JSON | PARQUET.

Inductive WriteDisposition : Type := WRITE_TRUNCATE | WRITE_APPEND | WRITE_EMPTY.

(** [bigquery.LoadJobConfig]; an option left out by the caller is [None]. *)
Record LoadJobConfig : Type := {
  autodetect : bool;
  source_format : SourceFormat;
  skip_leading_rows : option nat;
  write_disposition : option WriteDisposition
}.

Inductive ViewOp : Type :=
| UpdateView (view_id sql : string)
| CreateView (view_id sql : string).

(** The module-level configuration read from the environment. *)
Record Config : Type := {
  PROJECT_ID : string;
  BUCKET_NAME : string;
  PUBSUB_TOPIC_FOR_SQL_IMPORT : string;
  BIGQUERY_DATASET : string
}.

Definition default_config : Config := {|
  PROJECT_ID := "project-64f58cb2-a1cc-4618-9a0";
  BUCKET_NAME := "project-64f58cb2-data-analysis";
  PUBSUB_TOPIC_FOR_SQL_IMPORT := "sql-import-topic";
  BIGQUERY_DATASET := "analysis_dataset"
|}.

(** What the external engines compute.  None of it is code of the repository:
    the pipeline only calls it. *)
Record Services : Type := {
  (** the schema and rows a load job reads from a file *)
  parse_file : LoadJobConfig -> string -> result (list SchemaField * list Row);
  (** [pd.read_excel] followed by [to_csv(index=False)] *)
  read_excel_to_csv : string -> result string;
  (** the result of a query job against the current tables *)
  run_query : gmap string Table -> string
              -> result (list SchemaField * list Row);
  (** whether the warehouse accepts a view definition, given the view's id
      and its defining query *)
  accepts_view : string -> string -> bool;
  (** [csv.writer]: a header row followed by the data rows *)
  csv_text : list string -> list Row -> string
}.

(** The state of the three collaborators and the record of the jobs and
    messages submitted to them, oldest first. *)
Record World : Type := {
  datasets : gset string;
  tables : gmap string Table;
  blobs : gmap (string * string) string;
  load_jobs : list (string * LoadJobConfig);
  queries : list string;
  view_ops : list ViewOp;
  published : list (string * gmap string string)
}.

Definition with_datasets (w : World) (d : gset string) : World :=
  {| datasets := d; tables := tables w; blobs := blobs w;
     load_jobs := load_jobs w; queries := queries w; view_ops := view_ops w;
     published := published w |}.

Definition with_tables (w : World) (t : gmap string Table) : World :=
  {| datasets := datasets w; tables := t; blobs := blobs w;
     load_jobs := load_jobs w; queries := queries w; view_ops := view_ops w;
     published := published w |}.

Definition with_blobs (w : World) (b : gmap (string * string) string) : World :=
  {| datasets := datasets w; tables := tables w; blobs := b;
     load_jobs := load_jobs w; queries := queries w; view_ops := view_ops w;
     published := published w |}.

Definition with_load_jobs (w : World) (l : list (string * LoadJobConfig))
  : World :=
  {| datasets := datasets w; tables := tables w; blobs := blobs w;
     load_jobs := l; queries := queries w; view_ops := view_ops w;
     published := published w |}.

Definition with_queries (w : World) (q : list string) : World :=
  {| datasets := datasets w; tables := tables w; blobs := blobs w;
     load_jobs := load_jobs w; queries := q; view_ops := view_ops w;
     published := published w |}.

Definition with_view_ops (w : World) (v : list ViewOp) : World :=
  {| datasets := datasets w; tables := tables w; blobs := blobs w;
     load_jobs := load_jobs w; queries := queries w; view_ops := v;
     published := published w |}.

Definition with_published (w : World) (p : list (string * gmap string string))
  : World :=
  {| datasets := datasets w; tables := tables w; blobs := blobs w;
     load_jobs := load_jobs w; queries := queries w; view_ops := view_ops w;
     published := p |}.

Definition empty_world : World :=
  {| datasets := ∅; tables := ∅; blobs := ∅; load_jobs := []; queries := [];
     view_ops := []; published := [] |}.

(** A computation on the collaborators that may raise; what was done before
    the exception stays done. *)
Definition M (A : Type) : Type := World -> World * result A.

Definition ret {A : Type} (a : A) : M A := fun w => (w, Ok a).
Definition raise {A : Type} (e : exn) : M A := fun w => (w, Raise e).
Definition lift {A : Type} (r : result A) : M A := fun w => (w, r).

Definition bindM {A B : Type} (m : M A) (k : A -> M B) : M B :=
  fun w =>
    match m w with
    | (w1, Ok a) => k a w1
    | (w1, Raise e) => (w1, Raise e)
    end.

(** [try: body except NotFound: handler]. *)
Definition except_NotFound {A : Type} (body handler : M A) : M A :=
  fun w =>
    match body w with
    | (w1, Raise (NotFound _)) => handler w1
    | r => r
    end.

(** [try: body except Exception: handler]. *)
Definition except_Exception {A : Type} (body : M A) (handler : exn -> M A)
  : M A :=
  fun w =>
    match body w with
    | (w1, Raise e) => handler e w1
    | r => r
    end.

End Platform.

Export Platform.

#[global] Instance M_ret : MRet M := @ret.
#[global] Instance M_bind : MBind M := fun A B k m => bindM m k.

(** Unfolds the sequencing of [M] down to the state passing it stands for. *)
Ltac unfold_M :=
  unfold mbind, mret, M_bind, M_ret, bindM, ret, raise, lift,
    except_Exception, except_NotFound in *.

(** ** [str.format] with keyword arguments *)

Module Format.

Definition lbrace : ascii := ascii_of_N 123.
Definition rbrace : ascii := ascii_of_N 125.

Fixpoint assoc (k : string) (kw : list (string * string)) : option string :=
  match kw with
  | [] => None
  | (k', v) :: rest => if String.eqb k' k then Some v else assoc k rest
  end.

(** One pass over the template.  [field] is [Some acc] while inside a
    replacement field, [acc] holding its name so far, reversed.  A replacement
    field is a plain keyword name, as in every template of the catalog;
    conversions and format specifications are outside the model. *)
Fixpoint format_go (kw : list (string * string)) (l : list ascii)
    (field : option (list ascii)) : result (list ascii) :=
  match l, field with
  | [], None => Ok []
  | [], Some _ => Raise (ValueError "expected '}' before end of string")
  | a :: l', Some acc =>
      if Ascii.eqb a rbrace then
        match assoc (str (rev acc)) kw with
        | Some v => rest ← format_go kw l' None; Ok (chars v ++ rest)
        | None => Raise (KeyError (str (rev acc)))
        end
      else format_go kw l' (Some (a :: acc))
  | a :: l', None =>
      if Ascii.eqb a lbrace then
        match l' with
        | b :: l'' =>
            if Ascii.eqb b lbrace
            then rest ← format_go kw l'' None; Ok (lbrace :: rest)
            else format_go kw l' (Some [])
        | [] => Raise (ValueError "Single '{' encountered in format string")
        end
      else if Ascii.eqb a rbrace then
        match l' with
        | b :: l'' =>
            if Ascii.eqb b rbrace
            then rest ← format_go kw l'' None; Ok (rbrace :: rest)
            else Raise (ValueError "Single '}' encountered in format string")
        | [] => Raise (ValueError "Single '}' encountered in format string")
        end
      else rest ← format_go kw l' None; Ok (a :: rest)
  end.

Definition format (template : string) (kw : list (string * string))
  : result string :=
  out ← format_go kw (chars template) None; Ok (str out).

(** How a value that may be [None] is formatted. *)
Definition str_of (o : option string) : string := default "None" o.

(** [value or "NULL"]: [None] and the empty text are both falsy. *)
Definition or_NULL (o : option string) : string :=
  match o with
  | Some s => if String.eqb s "" then "NULL" else s
  | None => "NULL"
  end.

End Format.

Export Format.

(** ** The report catalog *)

Module Catalog.

Record ReportMeta : Type := { label : string; sql : string }.

Definition REPORTS : list (string * ReportMeta) :=
    [
      ("dept_totals",
       {| label := "Total spend per department (6 months)";
          sql := "
        SELECT {department} AS department, SUM({amount}) AS total_spent
        FROM `{table_fq}`
        GROUP BY department
        ORDER BY total_spent DESC
        " |});
      ("monthly_trend",
       {| label := "Monthly spend trend";
          sql := "
        SELECT FORMAT_DATE('%Y-%m', DATE({date})) AS month,
               SUM({amount}) AS total_spent
        FROM `{table_fq}`
        GROUP BY month
        ORDER BY month
        " |});
      ("top_expense_types",
       {| label := "Top 5 expense categories";
          sql := "
        SELECT {expense_type} AS expense_type, SUM({amount}) AS total_spent
        FROM `{table_fq}`
        GROUP BY expense_type
        ORDER BY total_spent DESC
        LIMIT 5
        " |});
      ("dept_month_matrix",
       {| label := "Department spend by month";
          sql := "
        SELECT FORMAT_DATE('%Y-%m', DATE({date})) AS month,
               {department} AS department,
               SUM({amount}) AS total_spent
        FROM `{table_fq}`
        GROUP BY month, department
        ORDER BY month, department
        " |});
      ("avg_monthly_by_dept",
       {| label := "Average monthly spend per department";
          sql := "
        WITH monthly AS (
          SELECT {department} AS department,
                 FORMAT_DATE('%Y-%m', DATE({date})) AS month,
                 SUM({amount}) AS monthly_spent
          FROM `{table_fq}`
          GROUP BY department, month
        )
        SELECT department, AVG(monthly_spent) AS avg_monthly_spent
        FROM monthly
        GROUP BY department
        ORDER BY avg_monthly_spent DESC
        " |})
    ].

(** [meta["sql"].format(table_fq=..., department=..., ...)]. *)
Definition render (template table_fq : string) (cols : ColumnRoleMap)
  : result string :=
  format template
    [("table_fq", table_fq);
     ("department", str_of (department cols));
     ("amount", str_of (amount cols));
     ("date", str_of (date cols));
     ("expense_type", or_NULL (expense_type cols))].

(** [d[k] = v] on a dictionary kept in insertion order. *)
Fixpoint dict_set (d : list (string * string)) (k v : string)
  : list (string * string) :=
  match d with
  | [] => [(k, v)]
  | (k', v') :: rest =>
      if String.eqb k' k then (k', v) :: rest else (k', v') :: dict_set rest k v
  end.

End Catalog.

Export Catalog.

(** ** The web application: [src/webapp/main.py] *)

Module Webapp.

(** What a route answers.  Authentication, rate limiting, logging and the
    temporary files under [/tmp] are not part of the model: a handler is given
    the uploaded text itself. *)
Inductive Body : Type :=
| JsonError (error : string)
| JsonUploaded (filename table : string)
| JsonRows (columns : list string) (data : list Row)
| JsonViews (views : list (string * string))
| Text (text : string)
| Attachment (download_name content : string).

Record Response : Type := { status : nat; body : Body }.

Definition exn_str (e : exn) : string :=
  match e with
  | ValueError m | AttributeError m | KeyError m | NotFound m
  | BadRequest m | OSError m => m
  | CalledProcessError _ => "Command returned non-zero exit status."
  end.

Section Routes.

Variable cfg : Config.
Variable svc : Services.

(** [f"{PROJECT_ID}.{BIGQUERY_DATASET}.{name}"]. *)
Definition fq (name : string) : string :=
  PROJECT_ID cfg +:+ "." +:+ BIGQUERY_DATASET cfg +:+ "." +:+ name.

Definition topic_path : string :=
  "projects/" +:+ PROJECT_ID cfg +:+ "/topics/"
  +:+ PUBSUB_TOPIC_FOR_SQL_IMPORT cfg.

(** *** Calls on the collaborators *)

Definition get_table (table_id : string) : M Table :=
  fun w =>
    match tables w !! table_id with
    | Some t => (w, Ok t)
    | None => (w, Raise (NotFound ("Not found: Table " +:+ table_id)))
    end.

Definition ensure_dataset_exists (dataset_id : string) : M unit :=
  fun w =>
    if bool_decide (dataset_id ∈ datasets w) then (w, Ok tt)
    else (with_datasets w ({[dataset_id]} ∪ datasets w), Ok tt).

(** [blob.upload_from_filename] on [bucket.blob(path)]. *)
Definition upload_blob (path content : string) : M unit :=
  fun w => (with_blobs w (<[(BUCKET_NAME cfg, path) := content]> (blobs w)),
            Ok tt).

(** [publisher.publish(topic_path, data=json.dumps(message).encode())]; the
    message is kept as the dictionary it encodes. *)
Definition publish (message : gmap string string) : M unit :=
  fun w => (with_published w (published w ++ [(topic_path, message)]), Ok tt).

(** What a finished load job leaves in the destination.  A job that does not
    set a write disposition appends, the warehouse's default for loads. *)
Definition written (old : option Table) (jc : LoadJobConfig)
    (sch : list SchemaField) (rs : list Row) : result Table :=
  let fresh := {| schema := sch; view_query := None; rows := rs |} in
  match default WRITE_APPEND (write_disposition jc), old with
  | WRITE_TRUNCATE, _ => Ok fresh
  | WRITE_APPEND, Some t =>
      Ok {| schema := schema t; view_query := view_query t;
            rows := rows t ++ rs |}
  | WRITE_APPEND, None => Ok fresh
  | WRITE_EMPTY, Some t =>
      match rows t with
      | [] => Ok fresh
      | _ :: _ => Raise (BadRequest "Already Exists: Table")
      end
  | WRITE_EMPTY, None => Ok fresh
  end.

(** [bq_client.load_table_from_file(f, table_id, job_config)] awaited with
    [load_job.result()]. *)
Definition load_table_from_file (content table_id : string)
    (jc : LoadJobConfig) : M unit :=
  fun w =>
    let w1 := with_load_jobs w (load_jobs w ++ [(table_id, jc)]) in
    match parse_file svc jc content with
    | Raise e => (w1, Raise e)
    | Ok (sch, rs) =>
        match written (tables w !! table_id) jc sch rs with
        | Raise e => (w1, Raise e)
        | Ok t => (with_tables w1 (<[table_id := t]> (tables w)), Ok tt)
        end
    end.

(** [bq_client.query(sql, job_config).result()], with the destination table
    of the job when it has one (always written with WRITE_TRUNCATE here). *)
Definition query (sql_text : string) (destination : option string)
  : M (list SchemaField * list Row) :=
  fun w =>
    let w1 := with_queries w (queries w ++ [sql_text]) in
    match run_query svc (tables w) sql_text with
    | Raise e => (w1, Raise e)
    | Ok (sch, rs) =>
        match destination with
        | None => (w1, Ok (sch, rs))
        | Some d =>
            (with_tables w1
               (<[d := {| schema := sch; view_query := None; rows := rs |}]>
                  (tables w)),
             Ok (sch, rs))
        end
    end.

(** [bq_client.update_table(existing, ["view_query"])] after
    [existing.view_query = sql]. *)
Definition update_view (view_id : string) (existing : Table)
    (sql_text : string) : M Table :=
  fun w =>
    if accepts_view svc view_id sql_text then
      let t := {| schema := schema existing; view_query := Some sql_text;
                  rows := rows existing |} in
      (with_view_ops (with_tables w (<[view_id := t]> (tables w)))
         (view_ops w ++ [UpdateView view_id sql_text]),
       Ok t)
    else (w, Raise (BadRequest ("Invalid view query for " +:+ view_id))).

(** [bq_client.create_table(table)] for a [bigquery.Table(view_id)] whose
    [view_query] is [sql]. *)
Definition create_view (view_id sql_text : string) : M Table :=
  fun w =>
    if accepts_view svc view_id sql_text then
      let t := {| schema := []; view_query := Some sql_text; rows := [] |} in
      (with_view_ops (with_tables w (<[view_id := t]> (tables w)))
         (view_ops w ++ [CreateView view_id sql_text]),
       Ok t)
    else (w, Raise (BadRequest ("Invalid view query for " +:+ view_id))).

(** *** Helper functions *)

Definition load_job_config (fmt : SourceFormat) (skip : nat) : LoadJobConfig :=
  {| autodetect := true; source_format := fmt; skip_leading_rows := Some skip;
     write_disposition := Some WRITE_TRUNCATE |}.

Definition msg_unsupported_type : string :=
  "Unsupported file type. Use CSV, Excel, JSON, or Parquet.".

Definition is_in (x : string) (l : list string) : bool :=
  existsb (String.eqb x) l.

Definition load_to_bigquery (content filename table_name : string) : M unit :=
  ensure_dataset_exists (BIGQUERY_DATASET cfg);;
  let ext := lower (snd (splitext filename)) in
  '(tmp, source, skip_rows) ←
     (if is_in ext [".xls"; ".xlsx"] then
        csv ← lift (read_excel_to_csv svc content);
        ret (csv, CSV, 1)
      else if String.eqb ext ".csv" then ret (content, CSV, 1)
      else if String.eqb ext ".json"
           then ret (content, NEWLINE_DELIMITED_JSON, 0)
      else if String.eqb ext ".parquet" then ret (content, PARQUET, 0)
      else raise (ValueError msg_unsupported_type));
  upload_blob ("uploads/" +:+ filename) tmp;;
  load_table_from_file tmp (fq table_name) (load_job_config source skip_rows).

Definition msg_table_not_found (table_name : string) : string :=
  "BigQuery table " +:+ table_name +:+ " not found.".

Definition analysis_query (table_name : string) : string :=
  "SELECT * FROM `" +:+ fq table_name +:+ "` LIMIT 10".

Definition run_analysis (table_name : string) : M string :=
  ensure_dataset_exists (BIGQUERY_DATASET cfg);;
  except_Exception (get_table (fq table_name))
    (fun _ => raise (ValueError (msg_table_not_found table_name)));;
  let sql_text := analysis_query table_name in
  '(sch, rs) ← query sql_text None;
  let local_csv := csv_text svc (map name sch) rs in
  upload_blob ("analysis_results/" +:+ table_name +:+ "_results.csv")
    local_csv;;
  query sql_text (Some (fq (table_name +:+ "_analysis")));;
  ret table_name.

Definition _fq_table (table_name : string) : result string :=
  validated_name ← validate_table_name table_name;
  Ok (fq validated_name).

Definition _table_schema_cols (table_fq : string)
  : M (gmap string (string * SchemaField)) :=
  tbl ← get_table table_fq;
  ret (schema_cols (schema tbl)).

Definition _detect_finance_columns (table_fq : string) : M ColumnRoleMap :=
  cols ← _table_schema_cols table_fq;
  lift (detect_in_cols cols).

Definition _run_sql (sql_text : string) (max_rows : nat)
  : M (list string * list Row) :=
  '(sch, rs) ← query sql_text None;
  ret (map name sch, take max_rows rs).

Definition _create_or_replace_view (view_id sql_text : string) : M Table :=
  except_NotFound
    (existing ← get_table view_id;
     update_view view_id existing sql_text)
    (create_view view_id sql_text).

Definition view_fq (validated_table_name rid : string) : string :=
  fq (validated_table_name +:+ "__" +:+ rid +:+ "_v").

(** The [for rid, meta in REPORTS.items()] loop of
    [publish_looker_views_for_table]. *)
Fixpoint publish_loop (reports : list (string * ReportMeta))
    (validated_table_name table_fq : string) (cols : ColumnRoleMap)
    (created : list (string * string)) : M (list (string * string)) :=
  match reports with
  | [] => ret created
  | (rid, meta) :: rest =>
      sql_text ← lift (render (sql meta) table_fq cols);
      _create_or_replace_view (view_fq validated_table_name rid) sql_text;;
      publish_loop rest validated_table_name table_fq cols
        (dict_set created rid (view_fq validated_table_name rid))
  end.

(** [publish_looker_views_for_table] over a given catalog. *)
Definition publish_views_over (reports : list (string * ReportMeta))
    (table_name : string) : M (list (string * string)) :=
  ensure_dataset_exists (BIGQUERY_DATASET cfg);;
  validated_table_name ← lift (validate_table_name table_name);
  let table_fq := fq validated_table_name in
  cols ← _detect_finance_columns table_fq;
  publish_loop reports validated_table_name table_fq cols [].

Definition publish_looker_views_for_table (table_name : string)
  : M (list (string * string)) :=
  publish_views_over REPORTS table_name.

(** *** What the publishing loop amounts to, for stating its properties *)

(** The dictionary the loop builds over a catalog. *)
Definition mapping_over (reports : list (string * ReportMeta))
    (validated_table_name : string) (created : list (string * string))
  : list (string * string) :=
  foldl (fun acc p => dict_set acc (fst p) (view_fq validated_table_name (fst p)))
        created reports.

Definition full_mapping (table_name : string) : list (string * string) :=
  mapping_over REPORTS table_name [].

(** The SQL of one report once rendered (the empty text when rendering
    fails). *)
Definition rendered (table_fq : string) (cols : ColumnRoleMap)
    (p : string * ReportMeta) : string :=
  match render (sql (snd p)) table_fq cols with
  | Ok s => s
  | Raise _ => ""
  end.

(** A report goes through when its template renders and the warehouse accepts
    the view. *)
Definition report_accepted (validated_table_name table_fq : string)
    (cols : ColumnRoleMap) (p : string * ReportMeta) : bool :=
  is_ok (render (sql (snd p)) table_fq cols)
  && accepts_view svc (view_fq validated_table_name (fst p))
       (rendered table_fq cols p).

(** The error a report that does not go through raises. *)
Definition report_error (validated_table_name table_fq : string)
    (cols : ColumnRoleMap) (p : string * ReportMeta) : exn :=
  match render (sql (snd p)) table_fq cols with
  | Raise e => e
  | Ok _ =>
      BadRequest ("Invalid view query for "
                  +:+ view_fq validated_table_name (fst p))
  end.

(** The resource [_create_or_replace_view] leaves under the view's id. *)
Definition replaced_view (old : option Table) (sql_text : string) : Table :=
  match old with
  | Some existing =>
      {| schema := schema existing; view_query := Some sql_text;
         rows := rows existing |}
  | None => {| schema := []; view_query := Some sql_text; rows := [] |}
  end.

Definition view_op (old : option Table) (view_id sql_text : string) : ViewOp :=
  match old with
  | Some _ => UpdateView view_id sql_text
  | None => CreateView view_id sql_text
  end.

(** *** Routes *)

Definition msg_unsupported_format : string :=
  "Unsupported file format. Supported: CSV, Excel, JSON, Parquet, SQL".

Definition import_message (file_name bucket_name : string)
  : gmap string string :=
  <["name" := file_name]> (<["bucket" := bucket_name]> ∅).

(** The [if file_ext == '.sql': ... elif ... else: return ...] chain of
    [index]; [Some r] is the early [return] of the last branch. *)
Definition route_upload (filename content table_name file_ext : string)
  : M (option Response) :=
  if String.eqb file_ext ".sql" then
    upload_blob ("uploads/" +:+ filename) content;;
    publish (import_message filename (BUCKET_NAME cfg));;
    ret None
  else if is_in file_ext [".xlsx"; ".xls"] then
    csv ← lift (read_excel_to_csv svc content);
    load_to_bigquery csv (table_name +:+ ".csv") table_name;;
    ret None
  else if is_in file_ext [".csv"; ".json"; ".parquet"] then
    load_to_bigquery content filename table_name;;
    ret None
  else ret (Some {| status := 400; body := JsonError msg_unsupported_format |}).

Definition derived_table_name (filename : string) : string :=
  lower (replace_char " " "_" (fst (splitext filename))).

(** The body of the [try] block of [index]. *)
Definition index_try (filename content : string) : M Response :=
  let file_ext := lower (snd (splitext filename)) in
  table_name ← lift (validate_table_name (derived_table_name filename));
  early ← route_upload filename content table_name file_ext;
  match early with
  | Some r => ret r
  | None =>
      run_analysis table_name;;
      ret {| status := 200; body := JsonUploaded filename table_name |}
  end.

(** [index] on a POST request; [uploaded_file] is [request.files.get('file')]
    as the pair of its file name and its content.  A file without a name is
    falsy. *)
Definition index (uploaded_file : option (string * string)) : M Response :=
  match uploaded_file with
  | None => ret {| status := 400; body := JsonError "No file uploaded" |}
  | Some (filename, content) =>
      if String.eqb filename ""
      then ret {| status := 400; body := JsonError "No file uploaded" |}
      else
        except_Exception (index_try filename content)
          (fun e =>
             match e with
             | ValueError m => ret {| status := 400; body := JsonError m |}
             | _ =>
                 ret {| status := 500;
                        body := JsonError ("Error processing file: "
                                           +:+ exn_str e) |}
             end)
  end.

(** [download_bq]; an exception other than [ValueError] escapes the handler. *)
Definition download_bq (table : option string) : M Response :=
  match table with
  | None => ret {| status := 400; body := Text "Missing ?table parameter." |}
  | Some table_name =>
      if String.eqb table_name ""
      then ret {| status := 400; body := Text "Missing ?table parameter." |}
      else
        fun w =>
          match run_analysis table_name w with
          | (w1, Raise (ValueError m)) =>
              (w1, Ok {| status := 400; body := Text m |})
          | (w1, Raise e) => (w1, Raise e)
          | (w1, Ok _) =>
              ('(sch, rs) ←
                 query ("SELECT * FROM `" +:+ fq (table_name +:+ "_analysis")
                        +:+ "`") None;
               ret {| status := 200;
                      body := Attachment (table_name +:+ "_analysis.csv")
                                (csv_text svc (map name sch) rs) |}) w1
          end
  end.

Definition report_lookup (report_id : option string) : option ReportMeta :=
  match report_id with
  | None => None
  | Some rid =>
      snd <$> find (fun '(k, _) => String.eqb k rid) REPORTS
  end.

(** The SQL of one report for one caller-supplied table name, as built in
    [run_report] and [download_report]. *)
Definition report_sql (meta : ReportMeta) (table : string) : M string :=
  table_fq ← lift (_fq_table table);
  cols ← _detect_finance_columns table_fq;
  lift (render (sql meta) table_fq cols).

Definition run_report (report_id table : option string) (limit : nat)
  : M Response :=
  match report_lookup report_id with
  | None => ret {| status := 400; body := JsonError "Unknown report id." |}
  | Some meta =>
      match table with
      | None => ret {| status := 400; body := JsonError "Missing 'table'." |}
      | Some t =>
          if String.eqb t ""
          then ret {| status := 400; body := JsonError "Missing 'table'." |}
          else
            except_Exception
              (sql_text ← report_sql meta t;
               '(columns, data) ← _run_sql sql_text limit;
               ret {| status := 200; body := JsonRows columns data |})
              (fun e => ret {| status := 500; body := JsonError (exn_str e) |})
      end
  end.

Definition download_report (report_id table : option string) : M Response :=
  match report_lookup report_id, table with
  | Some meta, Some t =>
      if String.eqb t ""
      then ret {| status := 400; body := Text "Missing or invalid parameters." |}
      else
        except_Exception
          (sql_text ← report_sql meta t;
           '(sch, rs) ← query sql_text None;
           ret {| status := 200;
                  body := Attachment
                            (default "" report_id +:+ "_" +:+ t +:+ ".csv")
                            (csv_text svc (map name sch) rs) |})
          (fun e => ret {| status := 500;
                           body := Text ("Error: " +:+ exn_str e) |})
  | _, _ => ret {| status := 400; body := Text "Missing or invalid parameters." |}
  end.


End Routes.

End Webapp.

Export Webapp.

(** ** The storage-triggered function:
       [src/functions/process_upload/main.py] *)

Module ProcessUpload.

(** The storage event, as far as the function reads it. *)
Record Event : Type := { ev_name : string; ev_bucket : string }.

Section Function.

Variable cfg : Config.
Variable svc : Services.

(** [bq_client.load_table_from_uri("gs://bucket/name", table_id, job_config)]
    awaited with [load_job.result()]. *)
Definition load_table_from_uri (bucket_name file_name table_id : string)
    (jc : LoadJobConfig) : M unit :=
  fun w =>
    match blobs w !! (bucket_name, file_name) with
    | Some content => load_table_from_file svc content table_id jc w
    | None =>
        (with_load_jobs w (load_jobs w ++ [(table_id, jc)]),
         Raise (NotFound ("Not found: URI gs://" +:+ bucket_name +:+ "/"
                          +:+ file_name)))
    end.

Definition uri_config (file_name : string) : LoadJobConfig :=
  {| autodetect := true;
     source_format := if endswith file_name ".csv" then CSV
                      else NEWLINE_DELIMITED_JSON;
     skip_leading_rows := None;
     write_disposition := None |}.

Definition process_upload (event : Event) : M unit :=
  let file_name := ev_name event in
  let bucket_name := ev_bucket event in
  if endswith file_name ".csv" || endswith file_name ".json" then
    let table_id := fq cfg (replace_char dot "_" file_name) in
    load_table_from_uri bucket_name file_name table_id (uri_config file_name)
  else if endswith file_name ".sql" then
    publish cfg (import_message file_name bucket_name)
  else ret tt.

End Function.

End ProcessUpload.

Export ProcessUpload.

(** ** The restore worker: [src/functions/import_sql_to_cloudsql/main.py] *)

Module Worker.

Record WorkerConfig : Type := {
  W_PROJECT_ID : string;
  W_BUCKET_NAME : string;
  INSTANCE_NAME : string;
  DATABASE_NAME : string;
  REGION : string
}.

Definition default_worker_config : WorkerConfig := {|
  W_PROJECT_ID := "data-analysis-webapp";
  W_BUCKET_NAME := "data-analysis-upload-1000";
  INSTANCE_NAME := "data-analysis-db";
  DATABASE_NAME := "data_analysis";
  REGION := "asia-southeast1"
|}.

(** What [subprocess.run(argv, check=True)] meets: the command ran and exited
    with a return code, or it could not be started at all and [run] raised
    the given error (an [OSError] such as a missing executable). *)
Inductive ProcessOutcome : Type :=
| Exited (returncode : Z)
| NotStarted (e : exn).

(** [subprocess.run(argv, check=True)]. *)
Definition subprocess_run (process : list string -> ProcessOutcome)
    (argv : list string) : result unit :=
  match process argv with
  | Exited 0 => Ok tt
  | Exited rc => Raise (CalledProcessError rc)
  | NotStarted e => Raise e
  end.

Inductive Printed : Type :=
| Skipping (file_name : string)
| ImportCompleted (file_name : string)
| ErrorImporting (file_name : string) (e : exn).

(** One invocation of the worker: what it printed, the commands it ran, and
    whether it returned ([Ok]: the message is acknowledged) or raised (the
    delivery fails and the queue redelivers the message). *)
Record Invocation : Type := {
  printed : list Printed;
  commands : list (list string);
  outcome : result unit
}.

Section Function.

Variable wcfg : WorkerConfig.
Variable process : list string -> ProcessOutcome.

Definition import_command (bucket_name : option string) (file_name : string)
  : list string :=
  let gcs_path := "gs://" +:+ str_of bucket_name +:+ "/" +:+ file_name in
  ["gcloud"; "sql"; "import"; "sql"; INSTANCE_NAME wcfg; gcs_path;
   "--project"; W_PROJECT_ID wcfg;
   "--database"; DATABASE_NAME wcfg;
   "--region=" +:+ REGION wcfg].

(** [import_sql] on the decoded message
    [json.loads(base64.b64decode(event['data']).decode('utf-8'))], a
    dictionary of texts. *)
Definition import_sql (pubsub_message : gmap string string) : Invocation :=
  let file_name := pubsub_message !! "name" in
  let bucket_name := pubsub_message !! "bucket" in
  match file_name with
  | None =>
      {| printed := []; commands := [];
         outcome := Raise (AttributeError
                      "'NoneType' object has no attribute 'endswith'") |}
  | Some fname =>
      if negb (endswith fname ".sql") then
        {| printed := [Skipping fname]; commands := []; outcome := Ok tt |}
      else
        let argv := import_command bucket_name fname in
        match subprocess_run process argv with
        | Ok _ =>
            {| printed := [ImportCompleted fname]; commands := [argv];
               outcome := Ok tt |}
        | Raise (CalledProcessError rc) =>
            {| printed := [ErrorImporting fname (CalledProcessError rc)];
               commands := [argv]; outcome := Ok tt |}
        | Raise e =>
            {| printed := []; commands := [argv]; outcome := Raise e |}
        end
  end.

End Function.

End Worker.

Export Worker.

(** ** A small instance of the collaborators, for running the model *)

Module Sample.

(** [text.split(sep)] for a one-character separator. *)
Fixpoint split_on (sep : ascii) (l : list ascii) (cur : list ascii)
  : list string :=
  match l with
  | [] => [str (rev cur)]
  | a :: l' =>
      if Ascii.eqb a sep then str (rev cur) :: split_on sep l' []
      else split_on sep l' (a :: cur)
  end.

Definition comma : ascii := ascii_of_N 44.

(** A load job that reads comma-separated lines; the columns are named by the
    first line when leading rows are skipped. *)
Definition sample_parse (jc : LoadJobConfig) (content : string)
  : result (list SchemaField * list Row) :=
  let lines := map (fun s => split_on comma (chars s) [])
                   (split_on LF (chars content) []) in
  match default 0 (skip_leading_rows jc), lines with
  | 0, _ => Ok ([], lines)
  | S n, header :: data => Ok (map field header, drop n data)
  | S _, [] => Ok ([], [])
  end.

Definition sample_services : Services := {|
  parse_file := sample_parse;
  read_excel_to_csv := fun content => Ok content;
  run_query := fun _ _ => Ok ([], []);
  accepts_view := fun _ _ => true;
  csv_text := fun header data => join newline (map (join ",") (header :: data))
|}.

Definition finance_table : Table :=
  {| schema := map field ["Dept"; "amt"; "txn_date"; "memo"];
     view_query := None;
     rows := [["ops"; "10"; "2024-01-05"; "x"]] |}.

Definition finance_world : World :=
  with_tables empty_world
    (<[fq default_config "finance_data" := finance_table]> ∅).

End Sample.

Export Sample.

(** ** The request shell of the web application: identity, rate limiting,
       result download *)

Module Shell.

Definition colon : ascii := ascii_of_N 58.

Definition iap_prefix : string := "accounts.google.com:".

(** [s.startswith(prefix)]. *)
Definition startswith (s prefix : string) : bool :=
  bool_decide (chars prefix `prefix_of` chars s).

(** [text.split(sep, 1)]: the text cut at its first [sep], or the text alone
    when it has none. *)
Fixpoint split_once (sep : ascii) (l : list ascii) : list (list ascii) :=
  match l with
  | [] => [[]]
  | a :: l' =>
      if Ascii.eqb a sep then [[]; l']
      else match split_once sep l' with
           | h :: t => (a :: h) :: t
           | [] => [[a]]
           end
  end.

(** [read_iap_identity]: the value it stores in [g.user_email].  The outer
    [None] stands for the [IndexError] that [[1]] raises on a list of one
    element.  Header names are taken in the spelling the code uses. *)
Definition read_iap_identity (headers : gmap string string)
  : option (option string) :=
  let raw := default "" (headers !! "X-Goog-Authenticated-User-Email") in
  if startswith raw iap_prefix
  then email ← split_once colon (chars raw) !! 1; Some (Some (str email))
  else Some None.

(** [if not email] of [require_user]: [None] and the empty text are falsy. *)
Definition no_user (email : option string) : bool :=
  match email with
  | Some e => String.eqb e ""
  | None => true
  end.

Definition unauthorized : Response :=
  {| status := 401; body := JsonError "Unauthorized" |}.

Definition rate_limit_exceeded : Response :=
  {| status := 429;
     body := JsonError "Rate limit exceeded. Please try again later." |}.

(** A POST request to [/], as far as the shell and [index] read it. *)
Record Request : Type := {
  req_headers : gmap string string;
  req_remote_addr : string;
  req_file : option (string * string)
}.

Section Limiter.

(** The clock's readings, and the test [now - req_time < window_seconds] as
    the machine computes it on them. *)
Variable Time : Type.
Variable within_window : Time -> Time -> nat -> bool.

(** [rate_limit(max_requests, window_seconds)] around a handler [f]: the
    state is the module-level [rate_limit_storage] and the collaborators. *)
Definition rate_limit (max_requests window_seconds : nat)
    (client_ip : string) (now : Time) (f : M Response)
  : gmap string (list Time) * World
    -> (gmap string (list Time) * World) * result Response :=
  fun '(storage, w) =>
    let kept :=
      List.filter (fun req_time => within_window now req_time window_seconds)
                  (default [] (storage !! client_ip)) in
    let storage1 := <[client_ip := kept]> storage in
    if max_requests <=? length kept
    then ((storage1, w), Ok rate_limit_exceeded)
    else
      let storage2 := <[client_ip := kept ++ [now]]> storage1 in
      let '(w', r) := f w in
      ((storage2, w'), r).

Variable cfg : Config.
Variable svc : Services.

(** [request.headers.get('X-Forwarded-For', request.remote_addr)]. *)
Definition client_ip_of (req : Request) : string :=
  default (req_remote_addr req) (req_headers req !! "X-Forwarded-For").

(** A POST to [/] through [read_iap_identity], [require_user] and
    [rate_limit(max_requests=5, window_seconds=60)].  The outer [None] is a
    request that failed in [read_iap_identity]. *)
Definition index_endpoint (req : Request) (now : Time)
  : gmap string (list Time) * World
    -> (gmap string (list Time) * World) * option (result Response) :=
  fun state =>
    match read_iap_identity (req_headers req) with
    | None => (state, None)
    | Some email =>
        if no_user email then (state, Some (Ok unauthorized))
        else
          let '(state', r) :=
            rate_limit 5 60 (client_ip_of req) now
              (index cfg svc (req_file req)) state in
          (state', Some r)
    end.

(** [download_file]. *)
Definition download_file (filename : string) : M Response :=
  fun w =>
    match blobs w !! (BUCKET_NAME cfg, "analysis_results/" +:+ filename) with
    | None =>
        (w, Ok {| status := 404;
                  body := Text ("File " +:+ filename
                                +:+ " not found in analysis_results folder.") |})
    | Some content =>
        (w, Ok {| status := 200; body := Attachment filename content |})
    end.

End Limiter.

End Shell.

Export Shell.

(** ** Helpers for stating what the routes do *)

Module RouteSpec.



(** Letters in lower case, digits, the underscore and the newline. *)
Definition lower_name_char (a : ascii) : bool :=
  is_ascii_lower a || is_ascii_digit a || (code a =? 95)%N || (code a =? 10)%N.

(** What the two [except] clauses of [index] answer. *)
Definition index_error_response (e : exn) : Response :=
  match e with
  | ValueError m => {| status := 400; body := JsonError m |}
  | _ => {| status := 500;
            body := JsonError ("Error processing file: " +:+ exn_str e) |}
  end.

(** A warehouse that accepts every view but the one named. *)
Definition rejecting_services (view_id : string) : Services := {|
  parse_file := parse_file sample_services;
  read_excel_to_csv := read_excel_to_csv sample_services;
  run_query := run_query sample_services;
  accepts_view := fun id _ => negb (String.eqb id view_id);
  csv_text := csv_text sample_services
|}.


End RouteSpec.

Export RouteSpec.

(** * Properties *)

(** ** Text *)

Section TextFacts.

Lemma str_chars (s : string) : str (chars s) = s.
Proof. apply String.string_of_list_ascii_of_string. Qed.

Lemma chars_str (l : list ascii) : chars (str l) = l.
Proof. apply String.list_ascii_of_string_of_list_ascii. Qed.

Lemma chars_inj (s t : string) : chars s = chars t -> s = t.
Proof. intros H. rewrite <- (str_chars s), <- (str_chars t). by rewrite H. Qed.

Lemma chars_app (s t : string) : chars (s +:+ t) = chars s ++ chars t.
Proof. induction s as [|a s IH]; simpl; [done | by rewrite <- IH]. Qed.

Lemma str_app (l k : list ascii) : str (l ++ k) = str l +:+ str k.
Proof. apply chars_inj. by rewrite chars_app, !chars_str. Qed.

Lemma eqb_empty_false (s : string) : s ≠ "" -> String.eqb s "" = false.
Proof. intros H. by apply String.eqb_neq. Qed.


End TextFacts.

(** ** The identifier validator *)

Section ValidatorFacts.


Lemma greedy_run_exact (fuel : nat) (w rest : list ascii) :
  Forall word w -> length w <= fuel ->
  (rest = [] \/ length w = fuel
   \/ exists a rest', rest = a :: rest' /\ is_word_char a = false) ->
  greedy_run fuel (w ++ rest) = (length w, rest).
Proof.
  revert fuel. induction w as [|a w IH]; intros fuel Hw Hlen Hrest; simpl.
  - destruct fuel as [|fuel]; [by destruct rest|].
    destruct Hrest as [-> | [Hl | (b & rest' & -> & Hb)]];
      [done | simpl in Hl; lia |].
    simpl. by rewrite Hb.
  - destruct fuel as [|fuel]; [simpl in Hlen; lia|].
    inversion Hw as [|? ? Ha Hw']; subst. unfold word in Ha. simpl. rewrite Ha.
    rewrite (IH fuel); [done | done | simpl in Hlen; lia |].
    destruct Hrest as [? | [? | ?]]; [by left | right; left; simpl in *; lia | by right; right].
Qed.

Lemma greedy_run_split (fuel : nat) (l : list ascii) :
  exists w, l = w ++ snd (greedy_run fuel l)
            /\ length w = fst (greedy_run fuel l)
            /\ fst (greedy_run fuel l) <= fuel /\ Forall word w.
Proof.
  revert l. induction fuel as [|fuel IH]; intros l.
  - exists []. destruct l; simpl; repeat split; auto.
  - destruct l as [|a l]; simpl.
    { exists []. simpl. repeat split; auto with lia. }
    destruct (is_word_char a) eqn:Ha.
    + destruct (IH l) as (w & Hl & Hk & Hle & Hw).
      destruct (greedy_run fuel l) as [k rest]. simpl in *.
      exists (a :: w). simpl. repeat split; [by f_equal | lia | lia |].
      by constructor.
    + exists []. simpl. repeat split; auto with lia.
Qed.

(** The pattern, read as Python reads it: a run of 1 to 128 class characters,
    then the end of the text or one final newline. *)
Lemma re_match_identifier_spec (s : string) :
  re_match_identifier s = true <->
  exists w, Forall word w /\ 1 <= length w <= 128
            /\ (chars s = w \/ chars s = w ++ [LF]).
Proof.
  unfold re_match_identifier. split.
  - destruct (greedy_run_split 128 (chars s)) as (w & Hs & Hk & Hle & Hw).
    destruct (greedy_run 128 (chars s)) as [k rest]. cbn [fst snd] in *.
    rewrite andb_true_iff, Nat.leb_le. unfold at_dollar.
    rewrite orb_true_iff, !bool_decide_eq_true. intros [H1 Hd].
    exists w. split; [done|]. split; [lia|].
    destruct Hd as [-> | ->]; [left; by rewrite Hs, app_nil_r | by right].
  - intros (w & Hw & Hlen & [Hs | Hs]); rewrite Hs.
    + rewrite <- (app_nil_r w). rewrite greedy_run_exact; [| done | lia | by left].
      apply andb_true_iff. split; [apply Nat.leb_le; lia | done].
    + rewrite greedy_run_exact; [| done | lia |].
      * apply andb_true_iff. split; [apply Nat.leb_le; lia | done].
      * right; right. by exists LF, [].
Qed.

Lemma validate_table_name_ok (s t : string) :
  validate_table_name s = Ok t <->
  t = s /\ re_match_identifier s = true /\ upper s ∉ sql_keywords.
Proof.
  unfold validate_table_name.
  destruct (String.eqb s "") eqn:He.
  - apply String.eqb_eq in He as ->. split; [done | by intros (_ & H & _)].
  - destruct (re_match_identifier s); simpl; [| split; [done | by intros (_ & ? & _)]].
    case_bool_decide; split; try done.
    + by intros (_ & _ & ?).
    + by intros [= ->].
    + by intros (-> & _).
Qed.

Lemma validate_table_name_error (s : string) (e : exn) :
  validate_table_name s = Raise e -> invalid_identifier e.
Proof.
  unfold validate_table_name, invalid_identifier.
  destruct (String.eqb s ""); [intros [= <-]; by left |].
  destruct (re_match_identifier s); simpl; [| intros [= <-]; right; by left].
  case_bool_decide; [intros [= <-]; right; by right | done].
Qed.

(** Every identifier of the specification that is not a keyword is returned
    unchanged. *)
Lemma validate_table_name_accepts (s : string) :
  spec_identifier s -> upper s ∉ sql_keywords -> validate_table_name s = Ok s.
Proof.
  intros [Hlen Hw] Hk. apply validate_table_name_ok. repeat split; [| done].
  apply re_match_identifier_spec. exists (chars s). by eauto.
Qed.

(** A keyword, in any casing, is rejected. *)
Lemma validate_table_name_keyword (s : string) :
  upper s ∈ sql_keywords ->
  exists e, validate_table_name s = Raise e /\ invalid_identifier e.
Proof.
  intros Hk. destruct (validate_table_name s) as [t|e] eqn:Hv.
  - apply validate_table_name_ok in Hv as (_ & _ & Hn). done.
  - exists e. split; [done |]. by eapply validate_table_name_error.
Qed.

(** What the code accepts besides the identifiers of the specification: an
    identifier followed by one newline. *)
Lemma validate_table_name_accepted_shape (s t : string) :
  validate_table_name s = Ok t ->
  t = s /\ (spec_identifier s
            \/ exists s0, spec_identifier s0 /\ s = s0 +:+ newline).
Proof.
  intros (-> & Hm & _)%validate_table_name_ok. split; [done|].
  apply re_match_identifier_spec in Hm as (w & Hw & Hlen & [Hs | Hs]).
  - left. split; by rewrite Hs.
  - right. exists (str w). split.
    + split; by rewrite chars_str.
    + apply chars_inj. by rewrite chars_app, chars_str.
Qed.

End ValidatorFacts.

(** C1.  The validator is meant to accept exactly the texts made of 1 to 128
    letters, digits and underscores that are not reserved keywords.  On the
    text [abc] followed by a newline it answers with the text itself, although
    that text is not such an identifier: the pattern's [$] also matches just
    before a final newline. *)
Theorem validate_table_name_trailing_newline :
  validate_table_name ("abc" +:+ newline) = Ok ("abc" +:+ newline)
  /\ ~ spec_identifier ("abc" +:+ newline).
Proof.
  split; [by vm_compute |].
  intros [_ Hw]. vm_compute in Hw.
  repeat match goal with
         | H : Forall _ (_ :: _) |- _ => inversion H; clear H; subst
         end.
  discriminate.
Qed.

(** ** Column role resolution *)

Section ResolverFacts.

Implicit Types (schema : list SchemaField) (f g : SchemaField)
  (c k : string) (candidates : list string).

Lemma last_named_Some k schema f :
  last_named k schema = Some f -> f ∈ schema /\ key f = k.
Proof.
  induction schema as [|g schema IH]; simpl; [done|].
  destruct (last_named k schema) as [h|].
  - intros [= ->]. destruct IH as [? ?]; [done|]. split; [by right | done].
  - destruct (String.eqb (key g) k) eqn:E; [|done].
    intros [= ->]. apply String.eqb_eq in E. split; [by left | done].
Qed.

Lemma last_named_None k schema :
  last_named k schema = None <-> forall f, f ∈ schema -> key f ≠ k.
Proof.
  induction schema as [|g schema IH]; simpl.
  - split; [intros _ f Hf; by apply elem_of_nil in Hf | done].
  - destruct (last_named k schema) as [h|] eqn:E.
    + split; [done|]. intros H. apply last_named_Some in E as [Hin Hk].
      exfalso. apply (H h); [by right | done].
    + destruct (String.eqb (key g) k) eqn:E'.
      * apply String.eqb_eq in E'. split; [done|]. intros H.
        exfalso. apply (H g); [by left | done].
      * apply String.eqb_neq in E'. split; [|done]. intros _ f Hf.
        apply elem_of_cons in Hf as [-> | Hf]; [done|]. by apply IH.
Qed.

Lemma last_named_app_last k (s1 s3 : list SchemaField) f :
  key f = k -> (forall g, g ∈ s3 -> key g ≠ k) ->
  last_named k (s1 ++ f :: s3) = Some f.
Proof.
  intros Hk Hs3. induction s1 as [|g s1 IH]; simpl.
  - apply last_named_None in Hs3. rewrite Hs3.
    apply String.eqb_eq in Hk. by rewrite Hk.
  - by rewrite IH.
Qed.


(** The dictionary built by [_table_schema_cols] holds, under each key, the
    last field stored under it. *)
Lemma schema_cols_lookup schema k :
  schema_cols schema !! k = (fun f => (name f, f)) <$> last_named k schema.
Proof.
  unfold schema_cols.
  enough (forall m : gmap string (string * SchemaField),
             foldl (fun out f => <[lower (name f) := (name f, f)]> out) m schema
               !! k
             = match last_named k schema with
               | Some f => Some (name f, f)
               | None => m !! k
               end) as H.
  { rewrite H. destruct (last_named k schema); [done | apply lookup_empty]. }
  induction schema as [|g schema IH]; intros m; simpl; [done|].
  rewrite IH. destruct (last_named k schema); [done|].
  fold (key g). destruct (String.eqb (key g) k) eqn:E.
  - apply String.eqb_eq in E. rewrite E. apply lookup_insert_eq.
  - apply String.eqb_neq in E. by apply lookup_insert_ne.
Qed.

Lemma pick_first_Some schema candidates n :
  pick_first (schema_cols schema) candidates = Some n <->
  exists pre c post f,
    candidates = pre ++ c :: post
    /\ (forall c', c' ∈ pre -> last_named (lower c') schema = None)
    /\ last_named (lower c) schema = Some f /\ n = name f.
Proof.
  induction candidates as [|c0 candidates IH]; simpl.
  - split; [done|]. intros (pre & c & post & f & H & _). by destruct pre.
  - rewrite schema_cols_lookup.
    destruct (last_named (lower c0) schema) as [f0|] eqn:E; simpl.
    + split.
      * intros [= <-]. exists [], c0, candidates, f0. repeat split; [|done].
        intros c' Hc'. by apply elem_of_nil in Hc'.
      * intros (pre & c & post & f & Hc & Hpre & Hf & ->).
        destruct pre as [|c1 pre]; simpl in Hc; injection Hc as -> ->.
        -- rewrite E in Hf. by injection Hf as ->.
        -- rewrite Hpre in E; [done | by left].
    + rewrite IH. split.
      * intros (pre & c & post & f & -> & Hpre & Hf & ->).
        exists (c0 :: pre), c, post, f. repeat split; [|done].
        intros c' [-> | Hc']%elem_of_cons; [done | by apply Hpre].
      * intros (pre & c & post & f & Hc & Hpre & Hf & ->).
        destruct pre as [|c1 pre]; simpl in Hc; injection Hc as -> ->.
        -- by rewrite E in Hf.
        -- exists pre, c, post, f. repeat split; [|done].
           intros c' Hc'. apply Hpre. by right.
Qed.

Lemma pick_first_None schema candidates :
  pick_first (schema_cols schema) candidates = None <->
  forall c, c ∈ candidates -> last_named (lower c) schema = None.
Proof.
  induction candidates as [|c0 candidates IH]; simpl.
  - split; [intros _ c Hc; by apply elem_of_nil in Hc | done].
  - rewrite schema_cols_lookup.
    destruct (last_named (lower c0) schema) as [f0|] eqn:E; simpl.
    + split; [done|]. intros H. rewrite H in E; [done | by left].
    + rewrite IH. split.
      * intros H c [-> | Hc]%elem_of_cons; [done | by apply H].
      * intros H c Hc. apply H. by right.
Qed.

Lemma no_match_iff schema c :
  last_named (lower c) schema = None <->
  forall f, f ∈ schema -> ~ matches c f.
Proof. apply last_named_None. Qed.

Lemma has_candidate_iff schema (r : Role) :
  has_candidate schema r <->
  is_Some (pick_first (schema_cols schema) (candidates_of r)).
Proof.
  split.
  - intros (c & f & Hc & Hf & Hm).
    destruct (pick_first _ _) eqn:E; [done|].
    rewrite pick_first_None in E. specialize (E c Hc).
    rewrite no_match_iff in E. by destruct (E f Hf).
  - intros [n (pre & c & post & f & Hc & _ & Hf & _)%pick_first_Some].
    apply last_named_Some in Hf as [Hf Hk].
    exists c, f. split; [|done]. rewrite Hc. apply elem_of_app. right. by left.
Qed.





End ResolverFacts.


(** C4.  When a required role has no candidate column, resolution raises the
    error whose message lists the candidates tried for the first such role
    (in the order department, amount, date); that list starts with the
    role's own name and belongs to no other role.  On the schema
    [region, value, period, category] the role reported is department. *)
Theorem resolution_error_names_missing_role (schema : list SchemaField) :
  (exists r, required_role r = true /\ ~ has_candidate schema r) ->
  (exists r,
     required_role r = true /\ ~ has_candidate schema r
     /\ detect_in_schema schema
        = Raise (ValueError ("Could not find any of columns: "
                             +:+ repr_list (candidates_of r)))
     /\ head (candidates_of r) = Some (role_name r)
     /\ (forall r', candidates_of r' = candidates_of r -> r' = r)
     /\ (~ has_candidate schema RDepartment -> r = RDepartment))
  /\ detect_in_schema region_schema
     = Raise (ValueError "Could not find any of columns: ['department', 'dept', 'cost_center', 'costcentre', 'cost_centre']").
Proof.
  intros (r0 & Hreq & Hmiss). split; [|by vm_compute].
  assert (forall r', candidates_of r' = candidates_of RDepartment
                     -> r' = RDepartment) as UD by (by intros []).
  assert (forall r', candidates_of r' = candidates_of RAmount
                     -> r' = RAmount) as UA by (by intros []).
  assert (forall r', candidates_of r' = candidates_of RDate
                     -> r' = RDate) as UT by (by intros []).
  pose proof (has_candidate_iff schema RDepartment) as HD.
  pose proof (has_candidate_iff schema RAmount) as HA.
  pose proof (has_candidate_iff schema RDate) as HT.
  unfold detect_in_schema, detect_in_cols, _pick_column.
  cbn [candidates_of] in HD, HA, HT.
  destruct (pick_first _ department_candidates) as [d|].
  - destruct (pick_first _ amount_candidates) as [a|].
    + destruct (pick_first _ date_candidates) as [t|].
      * exfalso. apply Hmiss. destruct r0; [| | |done].
        -- by apply HD. -- by apply HA. -- by apply HT.
      * exists RDate. repeat split; try done.
        -- intros H%HT. by destruct H.
        -- intros H. exfalso. apply H, HD. done.
    + exists RAmount. repeat split; try done.
      * intros H%HA. by destruct H.
      * intros H. exfalso. apply H, HD. done.
  - exists RDepartment. repeat split; try done.
    intros H%HD. by destruct H.
Qed.

Lemma resolution_error_names_missing_role_witness :
  (exists r, required_role r = true /\ ~ has_candidate region_schema r)
  /\ (exists r,
        required_role r = true /\ ~ has_candidate region_schema r
        /\ detect_in_schema region_schema
           = Raise (ValueError ("Could not find any of columns: "
                                +:+ repr_list (candidates_of r)))
        /\ head (candidates_of r) = Some (role_name r)
        /\ (forall r', candidates_of r' = candidates_of r -> r' = r)
        /\ (~ has_candidate region_schema RDepartment -> r = RDepartment)).
Proof.
  assert (exists r, required_role r = true /\ ~ has_candidate region_schema r)
    as H.
  { exists RDepartment. split; [reflexivity|].
    intros [n Hn]%has_candidate_iff. vm_compute in Hn. discriminate. }
  split; [exact H|].
  exact (proj1 (resolution_error_names_missing_role region_schema H)).
Defined.

(** C10.  When two columns of a schema have names that differ only in letter
    case, the dictionary of the resolver keeps the later one under their
    common lower-cased key, and a candidate that matches them resolves to the
    later column's spelling. *)
Theorem case_collision_last_column_wins
    (s1 s2 s3 : list SchemaField) (f1 f2 : SchemaField)
    (pre post : list string) (c : string) (required : bool) :
  lower (name f1) = lower (name f2) ->
  (forall g, g ∈ s3 -> lower (name g) ≠ lower (name f2)) ->
  lower c = lower (name f2) ->
  (forall c' g, c' ∈ pre -> g ∈ s1 ++ f1 :: s2 ++ f2 :: s3 -> ~ matches c' g) ->
  schema_cols (s1 ++ f1 :: s2 ++ f2 :: s3) !! lower (name f2)
  = Some (name f2, f2)
  /\ _pick_column (schema_cols (s1 ++ f1 :: s2 ++ f2 :: s3))
       (pre ++ c :: post) required
     = Ok (Some (name f2)).
Proof.
  intros Hsame Hlast Hc Hpre.
  assert (last_named (lower (name f2)) (s1 ++ f1 :: s2 ++ f2 :: s3) = Some f2)
    as Hl.
  { replace (s1 ++ f1 :: s2 ++ f2 :: s3) with ((s1 ++ f1 :: s2) ++ f2 :: s3)
      by (by rewrite <- app_assoc).
    by apply last_named_app_last. }
  split; [by rewrite schema_cols_lookup, Hl|].
  unfold _pick_column.
  assert (pick_first (schema_cols (s1 ++ f1 :: s2 ++ f2 :: s3))
            (pre ++ c :: post) = Some (name f2)) as ->; [|done].
  apply pick_first_Some. exists pre, c, post, f2. repeat split; [|by rewrite Hc].
  intros c' Hc'. apply no_match_iff. intros g Hg. by apply Hpre.
Qed.

Lemma case_collision_last_column_wins_witness :
  schema_cols (map field ["Dept"; "amt"; "DEPT"; "txn_date"]) !! "dept"
  = Some ("DEPT", field "DEPT")
  /\ _pick_column (schema_cols (map field ["Dept"; "amt"; "DEPT"; "txn_date"]))
       department_candidates true
     = Ok (Some "DEPT").
Proof.
  apply (case_collision_last_column_wins
           [] [field "amt"] [field "txn_date"] (field "Dept") (field "DEPT")
           ["department"] ["cost_center"; "costcentre"; "cost_centre"]
           "dept" true).
  - reflexivity.
  - intros g Hg. apply list_elem_of_singleton in Hg as ->. vm_compute.
    discriminate.
  - reflexivity.
  - intros c' g Hc' Hg. apply list_elem_of_singleton in Hc' as ->.
    unfold matches. simpl in Hg.
    repeat (apply elem_of_cons in Hg as [-> | Hg];
            [vm_compute; discriminate |]).
    by apply elem_of_nil in Hg.
Defined.

(** ** File names *)

Section FileNameFacts.





Lemma chars_lower (s : string) : chars (lower s) = map lower_char (chars s).
Proof. unfold lower. apply chars_str. Qed.


(** A text the validator accepts is made of class characters and, possibly,
    a final newline. *)
Lemma validated_chars (s t : string) (a : ascii) :
  validate_table_name s = Ok t -> a ∈ chars s ->
  is_word_char a = true \/ a = LF.
Proof.
  intros (_ & Hm & _)%validate_table_name_ok Ha.
  apply re_match_identifier_spec in Hm as (w & Hw & _ & [Hs | Hs]);
    rewrite Hs in Ha.
  - left. by apply (proj1 (Forall_forall _ _) Hw).
  - apply elem_of_app in Ha as [Ha | Ha].
    + left. by apply (proj1 (Forall_forall _ _) Hw).
    + right. by apply list_elem_of_singleton in Ha.
Qed.





End FileNameFacts.

(** ** Routing an upload *)

Section RoutingFacts.

Variable cfg : Config.
Variable svc : Services.

Lemma ensure_dataset_exists_frame (d : string) (w : World) :
  snd (ensure_dataset_exists d w) = Ok tt
  /\ tables (fst (ensure_dataset_exists d w)) = tables w
  /\ blobs (fst (ensure_dataset_exists d w)) = blobs w
  /\ load_jobs (fst (ensure_dataset_exists d w)) = load_jobs w
  /\ queries (fst (ensure_dataset_exists d w)) = queries w
  /\ view_ops (fst (ensure_dataset_exists d w)) = view_ops w
  /\ published (fst (ensure_dataset_exists d w)) = published w.
Proof. unfold ensure_dataset_exists. by case_bool_decide. Qed.

(** The analysis step submits no load job and publishes nothing; in the
    artifact store it writes its own result file only. *)
Lemma run_analysis_frame (table_name : string) (w : World) :
  load_jobs (fst (run_analysis cfg svc table_name w)) = load_jobs w
  /\ published (fst (run_analysis cfg svc table_name w)) = published w
  /\ view_ops (fst (run_analysis cfg svc table_name w)) = view_ops w
  /\ forall k,
       k ≠ (BUCKET_NAME cfg,
            "analysis_results/" +:+ table_name +:+ "_results.csv") ->
       blobs (fst (run_analysis cfg svc table_name w)) !! k = blobs w !! k.
Proof.
  unfold run_analysis, get_table, query, upload_blob. unfold_M.
  destruct (ensure_dataset_exists_frame (BIGQUERY_DATASET cfg) w)
    as (Hr & Ht & Hb & Hl & Hq & Hv & Hp).
  destruct (ensure_dataset_exists (BIGQUERY_DATASET cfg) w) as [w0 r0].
  simpl in *. subst r0.
  repeat (case_match; simplify_eq; simpl in * );
    repeat split; try done; intros k Hk;
    rewrite ?lookup_insert_ne; by rewrite ?Hb.
Qed.



End RoutingFacts.




(** ** Loading a table *)

Section LoadFacts.

Variable cfg : Config.
Variable svc : Services.

(** The web application's load leaves in the destination exactly what the load
    job read from the file, whatever the table held before. *)
Lemma load_to_bigquery_truncates (content filename t : string) (w w' : World) :
  load_to_bigquery cfg svc content filename t w = (w', Ok tt) ->
  exists tmp fmt skip sch rs,
    parse_file svc (load_job_config fmt skip) tmp = Ok (sch, rs)
    /\ tables w' !! fq cfg t
       = Some {| schema := sch; view_query := None; rows := rs |}.
Proof.
  unfold load_to_bigquery, load_table_from_file, upload_blob. unfold_M.
  destruct (ensure_dataset_exists (BIGQUERY_DATASET cfg) w) as [w0 [[]|e0]];
    [|done].
  intros H.
  repeat (case_match; simplify_eq; simpl in * );
    match goal with
    | Hp : parse_file svc (load_job_config ?fmt ?skip) ?tmp = Ok (?sch, ?rs)
      |- _ =>
        exists tmp, fmt, skip, sch, rs; split; [exact Hp|];
        by rewrite lookup_insert_eq
    end.
Qed.

(** The storage-triggered function sets no write disposition, so its load
    appends to a table that already exists. *)
Lemma process_upload_csv (file_name bucket_name content : string)
    (sch : list SchemaField) (rs : list Row) (w : World) :
  endswith file_name ".csv" = true ->
  blobs w !! (bucket_name, file_name) = Some content ->
  parse_file svc (uri_config file_name) content = Ok (sch, rs) ->
  tables (fst (process_upload cfg svc
                 {| ev_name := file_name; ev_bucket := bucket_name |} w))
    !! fq cfg (replace_char dot "_" file_name)
  = Some match tables w !! fq cfg (replace_char dot "_" file_name) with
         | Some old =>
             {| schema := schema old; view_query := view_query old;
                rows := rows old ++ rs |}
         | None => {| schema := sch; view_query := None; rows := rs |}
         end.
Proof.
  intros Hs Hb Hp. unfold process_upload. simpl. rewrite Hs. simpl.
  unfold load_table_from_uri. rewrite Hb.
  unfold load_table_from_file. rewrite Hp. unfold written. simpl.
  destruct (tables w !! _); simpl; by rewrite lookup_insert_eq.
Qed.

End LoadFacts.

(** C6, on the storage-triggered function.  When the same file name is
    delivered twice, the second time with new content, the destination table
    ends with the rows of the first file followed by the rows of the second:
    the load appends. *)
Theorem process_upload_reupload_appends (cfg : Config) (svc : Services)
    (file_name bucket_name first second : string)
    (sch1 sch2 : list SchemaField) (rs1 rs2 : list Row) (w : World) :
  endswith file_name ".csv" = true ->
  tables w !! fq cfg (replace_char dot "_" file_name) = None ->
  blobs w !! (bucket_name, file_name) = Some first ->
  parse_file svc (uri_config file_name) first = Ok (sch1, rs1) ->
  parse_file svc (uri_config file_name) second = Ok (sch2, rs2) ->
  let event := {| ev_name := file_name; ev_bucket := bucket_name |} in
  let w1 := fst (process_upload cfg svc event w) in
  let w1' := with_blobs w1 (<[(bucket_name, file_name) := second]> (blobs w1)) in
  let w2 := fst (process_upload cfg svc event w1') in
  rows <$> tables w2 !! fq cfg (replace_char dot "_" file_name)
  = Some (rs1 ++ rs2).
Proof.
  intros Hs Hnone Hb Hp1 Hp2 event w1 w1' w2.
  pose proof (process_upload_csv cfg svc _ _ _ _ _ w Hs Hb Hp1) as H1.
  rewrite Hnone in H1. fold event in H1. fold w1 in H1.
  assert (blobs w1' !! (bucket_name, file_name) = Some second) as Hb'
    by (subst w1'; simpl; apply lookup_insert_eq).
  pose proof (process_upload_csv cfg svc _ _ _ _ _ w1' Hs Hb' Hp2) as H2.
  fold event in H2. fold w2 in H2.
  assert (tables w1' = tables w1) as Ht by done.
  rewrite Ht, H1 in H2. by rewrite H2.
Qed.

Lemma process_upload_reupload_appends_witness :
  rows <$>
    tables
      (fst (process_upload default_config sample_services
              {| ev_name := "sales.csv"; ev_bucket := "b" |}
              (with_blobs
                 (fst (process_upload default_config sample_services
                         {| ev_name := "sales.csv"; ev_bucket := "b" |}
                         (with_blobs empty_world
                            (<[("b", "sales.csv") := "1,2" +:+ newline +:+ "3,4"]>
                               ∅))))
                 (<[("b", "sales.csv") := "5,6"]>
                    (blobs
                       (fst (process_upload default_config sample_services
                               {| ev_name := "sales.csv"; ev_bucket := "b" |}
                               (with_blobs empty_world
                                  (<[("b", "sales.csv") :=
                                       "1,2" +:+ newline +:+ "3,4"]> ∅)))))))))
      !! fq default_config "sales_csv"
  = Some ([["1"; "2"]; ["3"; "4"]] ++ [["5"; "6"]]).
Proof.
  exact (process_upload_reupload_appends default_config sample_services
           "sales.csv" "b" ("1,2" +:+ newline +:+ "3,4") "5,6"
           [] [] [["1"; "2"]; ["3"; "4"]] [["5"; "6"]]
           (with_blobs empty_world
              (<[("b", "sales.csv") := "1,2" +:+ newline +:+ "3,4"]> ∅))
           eq_refl eq_refl eq_refl eq_refl eq_refl).
Defined.

(** The same two uploads through the web form leave the rows of the second
    file only. *)
Example index_reupload_replaces :
  rows <$>
    tables
      (fst (index default_config sample_services
              (Some ("sales.csv", "a,b" +:+ newline +:+ "5,6"))
              (fst (index default_config sample_services
                      (Some ("sales.csv",
                             "a,b" +:+ newline +:+ "1,2" +:+ newline +:+ "3,4"))
                      empty_world))))
      !! fq default_config "sales"
  = Some [["5"; "6"]].
Proof. by vm_compute. Qed.

(** ** Validation before SQL *)

Section ValidationFacts.

Variable cfg : Config.
Variable svc : Services.

(** The report routes build their SQL through [_fq_table]: a name the
    validator rejects stops there, and the collaborators are never called. *)
Lemma report_sql_rejects (meta : ReportMeta) (table : string) (e : exn)
    (w : World) :
  validate_table_name table = Raise e ->
  report_sql cfg meta table w = (w, Raise e).
Proof.
  intros Hv. unfold report_sql, _fq_table. unfold_M. by rewrite Hv.
Qed.

Lemma run_report_rejects (report_id : option string) (table : string)
    (limit : nat) (e : exn) (w : World) :
  validate_table_name table = Raise e ->
  fst (run_report cfg svc report_id (Some table) limit w) = w.
Proof.
  intros Hv. unfold run_report.
  destruct (report_lookup report_id); [|done].
  destruct (String.eqb table ""); [done|].
  unfold_M. by rewrite (report_sql_rejects _ _ e).
Qed.

Lemma download_report_rejects (report_id : option string) (table : string)
    (e : exn) (w : World) :
  validate_table_name table = Raise e ->
  fst (download_report cfg svc report_id (Some table) w) = w.
Proof.
  intros Hv. unfold download_report.
  destruct (report_lookup report_id); [|done].
  destruct (String.eqb table ""); [done|].
  unfold_M. by rewrite (report_sql_rejects _ _ e).
Qed.


(** [download_bq] hands the name it was given to [run_analysis] as it is:
    whenever the table exists, the analysis query built from the raw name is
    submitted. *)
Lemma download_bq_queries_raw_name (table : string) (tbl : Table) (w : World) :
  table ≠ "" ->
  tables w !! fq cfg table = Some tbl ->
  analysis_query cfg table
  ∈ queries (fst (download_bq cfg svc (Some table) w)).
Proof.
  intros Hne Ht. unfold download_bq. rewrite eqb_empty_false by done.
  unfold run_analysis, get_table, query, upload_blob. unfold_M.
  destruct (ensure_dataset_exists_frame (BIGQUERY_DATASET cfg) w)
    as (Hr & Ht0 & _ & _ & Hq & _ & _).
  destruct (ensure_dataset_exists (BIGQUERY_DATASET cfg) w) as [w0 r0].
  simpl in *. subst r0. rewrite Ht0, Ht. simpl.
  repeat (case_match; simplify_eq; simpl in * );
    rewrite ?elem_of_app, ?list_elem_of_singleton; by eauto.
Qed.

End ValidationFacts.

(** C2, on the download path.  The table [q3-budget_csv] (the name the
    storage-triggered function derives for [q3-budget.csv]) does not pass the
    validator, yet [download_bq] submits the analysis query with that name
    interpolated whenever the table exists. *)
Theorem download_bq_skips_validation (cfg : Config) (svc : Services)
    (tbl : Table) :
  validate_table_name "q3-budget_csv" = Raise (ValueError msg_invalid)
  /\ ("SELECT * FROM `" +:+ fq cfg "q3-budget_csv" +:+ "` LIMIT 10")
     ∈ queries
         (fst (download_bq cfg svc (Some "q3-budget_csv")
                 (with_tables empty_world
                    (<[fq cfg "q3-budget_csv" := tbl]> ∅)))).
Proof.
  split; [by vm_compute|].
  apply (download_bq_queries_raw_name cfg svc "q3-budget_csv" tbl); [done|].
  apply lookup_insert_eq.
Qed.

(** ** The restore worker *)

(** C9, as the code has it.  For every message that carries a file name: if
    the name does not end in [.sql] the worker prints that it skips the file,
    runs nothing and returns; if it does, the worker runs the import command
    once, and whenever the command ran and exited, with whatever return code,
    the worker prints the outcome and returns normally, so the message is
    acknowledged and never redelivered. *)
Theorem import_sql_handles_message (wcfg : WorkerConfig)
    (process : list string -> ProcessOutcome)
    (pubsub_message : gmap string string) (file_name : string) :
  pubsub_message !! "name" = Some file_name ->
  (endswith file_name ".sql" = false ->
   import_sql wcfg process pubsub_message
   = {| printed := [Skipping file_name]; commands := []; outcome := Ok tt |})
  /\ (endswith file_name ".sql" = true ->
      forall rc,
        process (import_command wcfg (pubsub_message !! "bucket") file_name)
        = Exited rc ->
        outcome (import_sql wcfg process pubsub_message) = Ok tt
        /\ commands (import_sql wcfg process pubsub_message)
           = [import_command wcfg (pubsub_message !! "bucket") file_name]
        /\ printed (import_sql wcfg process pubsub_message)
           = [if (rc =? 0)%Z then ImportCompleted file_name
              else ErrorImporting file_name (CalledProcessError rc)]).
Proof.
  intros Hn. unfold import_sql. rewrite Hn. split.
  - by intros ->.
  - intros -> rc Hp. simpl. unfold subprocess_run. rewrite Hp.
    by destruct rc.
Qed.

Lemma import_sql_handles_message_witness :
  import_sql default_worker_config (fun _ => Exited 1)
    (import_message "notes.txt" "b")
  = {| printed := [Skipping "notes.txt"]; commands := []; outcome := Ok tt |}
  /\ outcome (import_sql default_worker_config (fun _ => Exited 1)
                (import_message "dump.sql" "b"))
     = Ok tt.
Proof.
  split.
  - exact (proj1 (import_sql_handles_message default_worker_config
                    (fun _ => Exited 1) (import_message "notes.txt" "b")
                    "notes.txt" eq_refl) eq_refl).
  - exact (proj1 (proj2 (import_sql_handles_message default_worker_config
                           (fun _ => Exited 1) (import_message "dump.sql" "b")
                           "dump.sql" eq_refl) eq_refl 1%Z eq_refl)).
Defined.

(** The claim as stated fails when the import command cannot be started: the
    error raised by [subprocess.run] is not a [CalledProcessError], nothing
    catches it, and the worker raises. *)
Lemma import_sql_raises_when_command_cannot_start :
  endswith "dump.sql" ".sql" = true
  /\ import_sql default_worker_config
       (fun _ => NotStarted (OSError "No such file or directory: 'gcloud'"))
       (import_message "dump.sql" "b")
     = {| printed := [];
          commands := [import_command default_worker_config (Some "b")
                         "dump.sql"];
          outcome := Raise (OSError "No such file or directory: 'gcloud'") |}.
Proof. by vm_compute. Qed.

(** A message without a file name makes the worker raise as well. *)
Example import_sql_raises_without_name :
  outcome (import_sql default_worker_config (fun _ => Exited 0)
             (<["bucket" := "b"]> ∅))
  = Raise (AttributeError "'NoneType' object has no attribute 'endswith'").
Proof. by vm_compute. Qed.

(** ** Publishing views *)

Section PublishFacts.

Variable cfg : Config.
Variable svc : Services.

Lemma _create_or_replace_view_spec (view_id sql_text : string) (w : World) :
  _create_or_replace_view svc view_id sql_text w
  = if accepts_view svc view_id sql_text
    then (with_view_ops
            (with_tables w
               (<[view_id := replaced_view (tables w !! view_id) sql_text]>
                  (tables w)))
            (view_ops w ++ [view_op (tables w !! view_id) view_id sql_text]),
          Ok (replaced_view (tables w !! view_id) sql_text))
    else (w, Raise (BadRequest ("Invalid view query for " +:+ view_id))).
Proof.
  unfold _create_or_replace_view, get_table, update_view, create_view.
  unfold_M.
  destruct (tables w !! view_id) as [tb|]; simpl;
    by destruct (accepts_view svc view_id sql_text).
Qed.

(** One turn of the loop. *)
Lemma publish_loop_cons (p : string * ReportMeta)
    (rest : list (string * ReportMeta)) (v table_fq : string)
    (cols : ColumnRoleMap) (created : list (string * string)) (w : World) :
  publish_loop cfg svc (p :: rest) v table_fq cols created w
  = if report_accepted cfg svc v table_fq cols p
    then publish_loop cfg svc rest v table_fq cols
           (dict_set created (fst p) (view_fq cfg v (fst p)))
           (with_view_ops
              (with_tables w
                 (<[view_fq cfg v (fst p)
                    := replaced_view (tables w !! view_fq cfg v (fst p))
                         (rendered table_fq cols p)]> (tables w)))
              (view_ops w
               ++ [view_op (tables w !! view_fq cfg v (fst p))
                     (view_fq cfg v (fst p)) (rendered table_fq cols p)]))
    else (w, Raise (report_error cfg v table_fq cols p)).
Proof.
  destruct p as [rid meta]. unfold report_accepted, report_error, rendered.
  cbn [publish_loop fst snd]. unfold_M.
  destruct (render (sql meta) table_fq cols) as [s|e]; simpl; [|done].
  rewrite _create_or_replace_view_spec.
  by destruct (accepts_view svc (view_fq cfg v rid) s).
Qed.

(** The loop returns the whole dictionary when every report goes through, and
    otherwise raises the error of the first report that does not. *)
Lemma publish_loop_result (reports : list (string * ReportMeta))
    (v table_fq : string) (cols : ColumnRoleMap)
    (created : list (string * string)) (w : World) :
  (forallb (report_accepted cfg svc v table_fq cols) reports = true
   /\ snd (publish_loop cfg svc reports v table_fq cols created w)
      = Ok (mapping_over cfg reports v created))
  \/ (exists p,
        p ∈ reports
        /\ report_accepted cfg svc v table_fq cols p = false
        /\ snd (publish_loop cfg svc reports v table_fq cols created w)
           = Raise (report_error cfg v table_fq cols p)).
Proof.
  revert created w. induction reports as [|p rest IH]; intros created w.
  - left. by split.
  - rewrite publish_loop_cons. cbn [forallb].
    destruct (report_accepted cfg svc v table_fq cols p) eqn:E.
    + destruct (IH (dict_set created (fst p) (view_fq cfg v (fst p)))
                  (with_view_ops
                     (with_tables w
                        (<[view_fq cfg v (fst p)
                           := replaced_view (tables w !! view_fq cfg v (fst p))
                                (rendered table_fq cols p)]> (tables w)))
                     (view_ops w
                      ++ [view_op (tables w !! view_fq cfg v (fst p))
                            (view_fq cfg v (fst p))
                            (rendered table_fq cols p)])))
        as [[Hall Hr] | (q & Hq & Ha & Hr)].
      * left. by split.
      * right. exists q. split; [by right | by split].
    + right. exists p. split; [by left | by split].
Qed.

(** What a run of the loop that returns leaves in the warehouse. *)
Lemma publish_loop_tables (reports : list (string * ReportMeta))
    (v table_fq : string) (cols : ColumnRoleMap)
    (created m : list (string * string)) (w w' : World) :
  publish_loop cfg svc reports v table_fq cols created w = (w', Ok m) ->
  datasets w' = datasets w
  /\ (forall id tb, tables w !! id = Some tb ->
        exists tb', tables w' !! id = Some tb' /\ schema tb' = schema tb)
  /\ (forall id, id ∉ map (fun p => view_fq cfg v (fst p)) reports ->
        tables w' !! id = tables w !! id)
  /\ (NoDup (map (fun p => view_fq cfg v (fst p)) reports) ->
      forall p, p ∈ reports ->
        exists tb, tables w' !! view_fq cfg v (fst p) = Some tb
                   /\ view_query tb = Some (rendered table_fq cols p)).
Proof.
  revert created w. induction reports as [|p rest IH]; intros created w.
  - intros [= <- _]. repeat split; [by eauto | ].
    intros _ p Hp. by apply elem_of_nil in Hp.
  - rewrite publish_loop_cons.
    destruct (report_accepted cfg svc v table_fq cols p); [|done].
    intros H. apply IH in H as (Hd & Hs & Hf & Hn). clear IH.
    cbn [datasets tables with_view_ops with_tables] in *.
    split; [done|]. split; [|split].
    + intros id tb Hid.
      destruct (decide (view_fq cfg v (fst p) = id)) as [<- | Hne].
      * destruct (Hs (view_fq cfg v (fst p))
                    (replaced_view (tables w !! view_fq cfg v (fst p))
                       (rendered table_fq cols p)))
          as (tb' & Ht' & Hsch); [apply lookup_insert_eq|].
        exists tb'. split; [done|]. rewrite Hsch, Hid. done.
      * apply (Hs id tb). by rewrite lookup_insert_ne.
    + intros id Hid. cbn [map] in Hid.
      apply not_elem_of_cons in Hid as [Hne Hid].
      rewrite Hf by done. by rewrite lookup_insert_ne.
    + intros Hnd p' Hp'. cbn [map] in Hnd.
      apply NoDup_cons in Hnd as [Hnotin Hnd].
      apply elem_of_cons in Hp' as [-> | Hp']; [|by apply Hn].
      rewrite Hf by done. rewrite lookup_insert_eq.
      eexists. split; [done|]. by destruct (tables w !! _).
Qed.

(** A second run over views that already hold their rendered SQL replaces
    each of them by itself. *)
Lemma publish_loop_again (reports : list (string * ReportMeta))
    (v table_fq : string) (cols : ColumnRoleMap)
    (created : list (string * string)) (w : World) :
  (forall p, p ∈ reports ->
     report_accepted cfg svc v table_fq cols p = true
     /\ exists tb, tables w !! view_fq cfg v (fst p) = Some tb
                   /\ view_query tb = Some (rendered table_fq cols p)) ->
  exists w',
    publish_loop cfg svc reports v table_fq cols created w
    = (w', Ok (mapping_over cfg reports v created))
    /\ tables w' = tables w /\ datasets w' = datasets w
    /\ view_ops w'
       = view_ops w
         ++ map (fun p => UpdateView (view_fq cfg v (fst p))
                            (rendered table_fq cols p)) reports.
Proof.
  revert created w. induction reports as [|p rest IH]; intros created w H.
  - exists w. repeat split. by rewrite app_nil_r.
  - rewrite publish_loop_cons.
    destruct (H p) as (-> & tb & Htb & Hq); [by left|].
    rewrite Htb.
    assert (replaced_view (Some tb) (rendered table_fq cols p) = tb) as ->.
    { destruct tb as [sch q rs]. simpl in *. by rewrite Hq. }
    rewrite insert_id by done.
    edestruct (IH (dict_set created (fst p) (view_fq cfg v (fst p)))
                 (with_view_ops (with_tables w (tables w))
                    (view_ops w
                     ++ [view_op (Some tb) (view_fq cfg v (fst p))
                           (rendered table_fq cols p)])))
      as (w' & Hrun & Ht & Hd & Hv).
    { intros q Hq'. apply H. by right. }
    exists w'. split; [exact Hrun|].
    cbn [tables datasets view_ops with_view_ops with_tables view_op] in *.
    repeat split; try done. by rewrite Hv, <- app_assoc.
Qed.

End PublishFacts.

Section PublishCatalogFacts.

Variable cfg : Config.
Variable svc : Services.

Lemma app_inj_tail (s t suffix : string) :
  s +:+ suffix = t +:+ suffix -> s = t.
Proof.
  intros H. apply chars_inj. apply (f_equal chars) in H.
  rewrite !chars_app in H. by apply app_inv_tail in H.
Qed.

Lemma view_fq_inj (v rid rid' : string) :
  view_fq cfg v rid = view_fq cfg v rid' -> rid = rid'.
Proof.
  unfold view_fq, fq. intros H.
  repeat apply String.app_inj in H. by apply app_inj_tail in H.
Qed.

Lemma REPORTS_views_NoDup (v : string) :
  NoDup (map (fun p : string * ReportMeta => view_fq cfg v (fst p)) REPORTS).
Proof.
  change (NoDup ((fun rid => view_fq cfg v rid) <$> (fst <$> REPORTS))).
  apply NoDup_fmap_2; [intros rid rid'; apply view_fq_inj|].
  apply (bool_decide_unpack _). by vm_compute.
Qed.

(** Every template of the catalog renders, whatever the table and columns. *)
Lemma REPORTS_render (table_fq : string) (cols : ColumnRoleMap)
    (p : string * ReportMeta) :
  p ∈ REPORTS -> is_ok (render (sql (snd p)) table_fq cols) = true.
Proof.
  intros Hp. unfold REPORTS in Hp.
  repeat (apply elem_of_cons in Hp as [-> | Hp]; [by vm_compute|]).
  by apply elem_of_nil in Hp.
Qed.

(** [publish_looker_views_for_table], step by step. *)
Lemma publish_unfold (table_name : string) (w : World) :
  publish_looker_views_for_table cfg svc table_name w
  = let w0 := fst (ensure_dataset_exists (BIGQUERY_DATASET cfg) w) in
    match validate_table_name table_name with
    | Raise e => (w0, Raise e)
    | Ok v =>
        match tables w0 !! fq cfg v with
        | None => (w0, Raise (NotFound ("Not found: Table " +:+ fq cfg v)))
        | Some tbl =>
            match detect_in_schema (schema tbl) with
            | Raise e => (w0, Raise e)
            | Ok cols => publish_loop cfg svc REPORTS v (fq cfg v) cols [] w0
            end
        end
    end.
Proof.
  unfold publish_looker_views_for_table, publish_views_over,
    _detect_finance_columns, _table_schema_cols, get_table, detect_in_schema.
  unfold_M.
  destruct (ensure_dataset_exists_frame (BIGQUERY_DATASET cfg) w) as (Hr & _).
  destruct (ensure_dataset_exists (BIGQUERY_DATASET cfg) w) as [w0 r0].
  simpl in *. subst r0.
  destruct (validate_table_name table_name) as [v|e]; [|done].
  destruct (tables w0 !! fq cfg v) as [tbl|]; [|done].
  by destruct (detect_in_cols (schema_cols (schema tbl))).
Qed.

Lemma ensure_dataset_exists_again (d : string) (w : World) :
  d ∈ datasets w -> ensure_dataset_exists d w = (w, Ok tt).
Proof. intros H. unfold ensure_dataset_exists. by rewrite bool_decide_eq_true_2. Qed.

Lemma ensure_dataset_exists_present (d : string) (w : World) :
  d ∈ datasets (fst (ensure_dataset_exists d w)).
Proof.
  unfold ensure_dataset_exists. case_bool_decide; simpl; [done|].
  apply elem_of_union_l. by apply elem_of_singleton.
Qed.

End PublishCatalogFacts.

(** C7.  The mapping [publish_looker_views_for_table] returns is, whenever it
    returns one, the whole catalog: one entry per report, five in all, each
    the fully-qualified view named [<table>__<report id>_v].  For a valid
    name whose table exists and whose required roles resolve, the call
    returns that mapping when the warehouse accepts every view; if some
    report does not go through, the call raises that report's error and
    returns no mapping. *)
Theorem publish_returns_full_catalog (cfg : Config) (svc : Services)
    (table_name : string) (w : World) :
  full_mapping cfg table_name
  = [("dept_totals", fq cfg (table_name +:+ "__dept_totals_v"));
     ("monthly_trend", fq cfg (table_name +:+ "__monthly_trend_v"));
     ("top_expense_types", fq cfg (table_name +:+ "__top_expense_types_v"));
     ("dept_month_matrix", fq cfg (table_name +:+ "__dept_month_matrix_v"));
     ("avg_monthly_by_dept", fq cfg (table_name +:+ "__avg_monthly_by_dept_v"))]
  /\ (forall m,
        snd (publish_looker_views_for_table cfg svc table_name w) = Ok m ->
        m = full_mapping cfg table_name)
  /\ (forall tbl cols,
        is_ok (validate_table_name table_name) = true ->
        tables w !! fq cfg table_name = Some tbl ->
        detect_in_schema (schema tbl) = Ok cols ->
        (forallb (fun p => accepts_view svc (view_fq cfg table_name (fst p))
                             (rendered (fq cfg table_name) cols p)) REPORTS
         = true
         /\ snd (publish_looker_views_for_table cfg svc table_name w)
            = Ok (full_mapping cfg table_name))
        \/ (exists p,
              p ∈ REPORTS
              /\ accepts_view svc (view_fq cfg table_name (fst p))
                   (rendered (fq cfg table_name) cols p) = false
              /\ snd (publish_looker_views_for_table cfg svc table_name w)
                 = Raise (BadRequest
                            ("Invalid view query for "
                             +:+ view_fq cfg table_name (fst p))))).
Proof.
  split; [reflexivity|]. split.
  - intros m. rewrite publish_unfold. cbv zeta.
    destruct (validate_table_name table_name) as [v|e] eqn:Hv; [|done].
    apply validate_table_name_ok in Hv as [-> _].
    destruct (tables _ !! _) as [tbl|]; [|done].
    destruct (detect_in_schema (schema tbl)) as [cols|]; [|done].
    destruct (publish_loop_result cfg svc REPORTS table_name
                (fq cfg table_name) cols []
                (fst (ensure_dataset_exists (BIGQUERY_DATASET cfg) w)))
      as [[_ Hr] | (p & _ & _ & Hr)]; rewrite Hr; [|done].
    by intros [= <-].
  - intros tbl cols Hv Ht Hd. rewrite publish_unfold. cbv zeta.
    destruct (validate_table_name table_name) as [v|e] eqn:Hv'; [|done].
    apply validate_table_name_ok in Hv' as [-> _].
    destruct (ensure_dataset_exists_frame (BIGQUERY_DATASET cfg) w)
      as (_ & -> & _).
    rewrite Ht, Hd.
    assert (forall p, p ∈ REPORTS ->
              report_accepted cfg svc table_name (fq cfg table_name) cols p
              = accepts_view svc (view_fq cfg table_name (fst p))
                  (rendered (fq cfg table_name) cols p)) as Hacc.
    { intros p Hp. unfold report_accepted. by rewrite REPORTS_render. }
    destruct (publish_loop_result cfg svc REPORTS table_name
                (fq cfg table_name) cols []
                (fst (ensure_dataset_exists (BIGQUERY_DATASET cfg) w)))
      as [[Hall Hr] | (p & Hp & Ha & Hr)].
    + left. split; [|exact Hr].
      apply forallb_forall. intros p Hp%list_elem_of_In.
      rewrite <- Hacc by done.
      by apply (proj1 (forallb_forall _ _) Hall), list_elem_of_In.
    + right. exists p. split; [done|]. rewrite <- Hacc by done.
      split; [done|]. rewrite Hr. unfold report_error.
      pose proof (REPORTS_render (fq cfg table_name) cols p Hp) as Hok.
      by destruct (render _ _ _).
Qed.

Example publish_finance_data :
  snd (publish_looker_views_for_table default_config sample_services
         "finance_data" finance_world)
  = Ok (full_mapping default_config "finance_data")
  /\ length (full_mapping default_config "finance_data") = 5.
Proof. by vm_compute. Qed.

(** C8.  When a call of [publish_looker_views_for_table] has returned a
    mapping, calling it again on the state it left returns the same mapping,
    leaves every table and view of the warehouse as it was, and performs one
    replacement per report, each writing the SQL the view already holds; no
    view is created. *)
Theorem publish_twice_same_mapping (cfg : Config) (svc : Services)
    (table_name : string) (w w1 : World) (m : list (string * string)) :
  publish_looker_views_for_table cfg svc table_name w = (w1, Ok m) ->
  exists w2 ops,
    publish_looker_views_for_table cfg svc table_name w1 = (w2, Ok m)
    /\ tables w2 = tables w1
    /\ view_ops w2 = view_ops w1 ++ ops
    /\ length ops = length REPORTS
    /\ Forall (fun op => exists view_id sql_text tb,
                           op = UpdateView view_id sql_text
                           /\ tables w1 !! view_id = Some tb
                           /\ view_query tb = Some sql_text) ops.
Proof.
  rewrite publish_unfold. cbv zeta.
  pose proof (ensure_dataset_exists_present (BIGQUERY_DATASET cfg) w) as Hds.
  set (w0 := fst (ensure_dataset_exists (BIGQUERY_DATASET cfg) w)) in *.
  destruct (validate_table_name table_name) as [v|e] eqn:Hv; [|done].
  destruct (tables w0 !! fq cfg v) as [tbl|] eqn:Ht; [|done].
  destruct (detect_in_schema (schema tbl)) as [cols|] eqn:Hd; [|done].
  intros Hrun.
  (* the first run: every report went through, the views hold their SQL *)
  pose proof (publish_loop_result cfg svc REPORTS v (fq cfg v) cols [] w0)
    as Hres.
  rewrite Hrun in Hres. cbn [snd] in Hres.
  destruct Hres as [[Hall Hm] | (p & _ & _ & Hr)]; [|done].
  injection Hm as ->.
  destruct (publish_loop_tables cfg svc _ _ _ _ _ _ _ _ Hrun)
    as (Hdata & Hsch & _ & Hviews).
  specialize (Hviews (REPORTS_views_NoDup cfg v)).
  destruct (Hsch _ _ Ht) as (tbl' & Ht' & Hs').
  (* the second run *)
  rewrite publish_unfold. cbv zeta.
  rewrite ensure_dataset_exists_again by (by rewrite Hdata).
  cbn [fst]. rewrite Hv, Ht', Hs', Hd.
  destruct (publish_loop_again cfg svc REPORTS v (fq cfg v) cols [] w1)
    as (w2 & Hrun2 & Htabs & _ & Hops).
  { intros p Hp. split; [|by apply Hviews].
    by apply (proj1 (forallb_forall _ _) Hall), list_elem_of_In. }
  exists w2, (map (fun p => UpdateView (view_fq cfg v (fst p))
                              (rendered (fq cfg v) cols p)) REPORTS).
  split; [exact Hrun2|]. split; [exact Htabs|]. split; [exact Hops|].
  split; [by rewrite length_map|].
  apply Forall_forall. intros op Hop.
  apply list_elem_of_fmap in Hop as (p & -> & Hp).
  destruct (Hviews p Hp) as (tb & Htb & Hq).
  by exists (view_fq cfg v (fst p)), (rendered (fq cfg v) cols p), tb.
Qed.

Lemma publish_twice_same_mapping_witness :
  exists w2 ops,
    publish_looker_views_for_table default_config sample_services
      "finance_data"
      (fst (publish_looker_views_for_table default_config sample_services
              "finance_data" finance_world))
    = (w2, Ok (full_mapping default_config "finance_data"))
    /\ tables w2
       = tables (fst (publish_looker_views_for_table default_config
                        sample_services "finance_data" finance_world))
    /\ view_ops w2
       = view_ops (fst (publish_looker_views_for_table default_config
                          sample_services "finance_data" finance_world))
         ++ ops
    /\ length ops = length REPORTS
    /\ Forall (fun op => exists view_id sql_text tb,
                 op = UpdateView view_id sql_text
                 /\ tables (fst (publish_looker_views_for_table default_config
                                   sample_services "finance_data"
                                   finance_world))
                    !! view_id = Some tb
                 /\ view_query tb = Some sql_text) ops.
Proof.
  apply (publish_twice_same_mapping default_config sample_services
           "finance_data" finance_world).
  by vm_compute.
Defined.

(** * Further properties of the code *)

(** ** Names *)

Section NameFacts.

Ltac each_char a := destruct a as [[] [] [] [] [] [] [] []]; vm_compute.




Lemma lower_char_lower_name (a : ascii) :
  is_word_char (lower_char a) = true \/ lower_char a = LF ->
  lower_name_char (lower_char a) = true.
Proof.
  each_char a; intros [H | H];
    solve [reflexivity | discriminate H].
Qed.

Lemma word_char_safe (a : ascii) :
  is_word_char a = true \/ a = LF ->
  a ≠ "`"%char /\ a ≠ "'"%char /\ a ≠ " "%char /\ a ≠ ";"%char
  /\ a ≠ dot /\ a ≠ "-"%char /\ a ≠ slash.
Proof.
  each_char a; intros [H | H]; try discriminate H;
    repeat split; discriminate.
Qed.






End NameFacts.

(** Whatever the validator returns is its argument, made of letters, digits
    and underscores with at most a final newline: it holds no backtick, quote,
    blank, semicolon, dot, hyphen or slash. *)
Theorem validated_name_characters (s t : string) :
  validate_table_name s = Ok t ->
  t = s
  /\ forall a, a ∈ chars t ->
       (is_word_char a = true \/ a = LF)
       /\ a ≠ "`"%char /\ a ≠ "'"%char /\ a ≠ " "%char /\ a ≠ ";"%char
       /\ a ≠ dot /\ a ≠ "-"%char /\ a ≠ slash.
Proof.
  intros Hv. pose proof Hv as (-> & _)%validate_table_name_ok.
  split; [done|]. intros a Ha.
  pose proof (validated_chars _ _ _ Hv Ha) as H.
  split; [done | by apply word_char_safe].
Qed.

Lemma validated_name_characters_witness :
  "finance_data" = "finance_data"
  /\ forall a, a ∈ chars "finance_data" ->
       (is_word_char a = true \/ a = LF)
       /\ a ≠ "`"%char /\ a ≠ "'"%char /\ a ≠ " "%char /\ a ≠ ";"%char
       /\ a ≠ dot /\ a ≠ "-"%char /\ a ≠ slash.
Proof.
  exact (validated_name_characters "finance_data" "finance_data" eq_refl).
Defined.


(** A table name derived from a file name and accepted by the validator is in
    lower case: lower-case letters, digits and underscores (and at most the
    final newline the validator lets through). *)
Theorem derived_table_name_lower_case (filename t : string) :
  validate_table_name (derived_table_name filename) = Ok t ->
  t = lower (replace_char " " "_" (fst (splitext filename)))
  /\ Forall (fun a => lower_name_char a = true) (chars t).
Proof.
  intros Hv. pose proof Hv as (-> & _)%validate_table_name_ok.
  split; [done|]. apply Forall_forall. intros a Ha.
  pose proof (validated_chars _ _ _ Hv Ha) as H.
  unfold derived_table_name in Ha. rewrite chars_lower in Ha.
  apply list_elem_of_fmap in Ha as (b & -> & _).
  by apply lower_char_lower_name.
Qed.

Lemma derived_table_name_lower_case_witness :
  "q3_budget" = lower (replace_char " " "_" (fst (splitext "Q3 Budget.CSV")))
  /\ Forall (fun a => lower_name_char a = true) (chars "q3_budget").
Proof.
  exact (derived_table_name_lower_case "Q3 Budget.CSV" "q3_budget" eq_refl).
Defined.

(** ** The upload route *)

Section IndexFacts.

Variable cfg : Config.
Variable svc : Services.

Lemma valid_name_nonempty (filename t : string) :
  validate_table_name (derived_table_name filename) = Ok t -> filename ≠ "".
Proof. intros Hv ->. by vm_compute in Hv. Qed.

(** [index] on a file whose derived table name is valid: the extension
    dispatch, then the analysis step, with the two [except] clauses. *)
Lemma index_valid (filename content t : string) (w : World) :
  validate_table_name (derived_table_name filename) = Ok t ->
  index cfg svc (Some (filename, content)) w
  = match route_upload cfg svc filename content t
            (lower (snd (splitext filename))) w with
    | (w1, Ok None) =>
        match run_analysis cfg svc t w1 with
        | (w2, Ok _) =>
            (w2, Ok {| status := 200; body := JsonUploaded filename t |})
        | (w2, Raise e) => (w2, Ok (index_error_response e))
        end
    | (w1, Ok (Some r)) => (w1, Ok r)
    | (w1, Raise e) => (w1, Ok (index_error_response e))
    end.
Proof.
  intros Hv. unfold index.
  rewrite eqb_empty_false by (by eapply valid_name_nonempty).
  unfold index_try. rewrite Hv. unfold_M. simpl.
  destruct (route_upload _ _ _ _ _ _ w) as [w1 [[r|]|e]]; simpl.
  - done.
  - destruct (run_analysis cfg svc t w1) as [w2 [r|e]]; simpl; [done|].
    by destruct e.
  - by destruct e.
Qed.



(** [load_to_bigquery] submits at most one load job, into the table it was
    given, with replace semantics. *)
Lemma load_to_bigquery_jobs (content filename t : string) (w : World) :
  load_jobs (fst (load_to_bigquery cfg svc content filename t w)) = load_jobs w
  \/ exists fmt skip,
       load_jobs (fst (load_to_bigquery cfg svc content filename t w))
       = load_jobs w ++ [(fq cfg t, load_job_config fmt skip)].
Proof.
  unfold load_to_bigquery, load_table_from_file, upload_blob. unfold_M.
  destruct (ensure_dataset_exists_frame (BIGQUERY_DATASET cfg) w)
    as (Hr & _ & _ & Hl & _).
  destruct (ensure_dataset_exists (BIGQUERY_DATASET cfg) w) as [w0 r0].
  simpl in *. subst r0.
  repeat (case_match; simplify_eq; simpl in * );
    rewrite ?Hl; solve [by left | right; by eauto].
Qed.

(** What a successful analysis step has done. *)
Lemma run_analysis_Ok (t r : string) (w w' : World) :
  run_analysis cfg svc t w = (w', Ok r) ->
  exists tbl sch rs,
    tables w !! fq cfg t = Some tbl
    /\ run_query svc (tables w) (analysis_query cfg t) = Ok (sch, rs)
    /\ r = t
    /\ tables w'
       = <[fq cfg (t +:+ "_analysis")
           := {| schema := sch; view_query := None; rows := rs |}]> (tables w)
    /\ blobs w'
       = <[(BUCKET_NAME cfg, "analysis_results/" +:+ t +:+ "_results.csv")
           := csv_text svc (map name sch) rs]> (blobs w)
    /\ queries w'
       = queries w ++ [analysis_query cfg t; analysis_query cfg t].
Proof.
  unfold run_analysis, get_table, query, upload_blob. unfold_M.
  destruct (ensure_dataset_exists_frame (BIGQUERY_DATASET cfg) w)
    as (Hr & Ht & Hb & _ & Hq & _).
  destruct (ensure_dataset_exists (BIGQUERY_DATASET cfg) w) as [w0 r0].
  simpl in *. subst r0. rewrite <- Ht.
  destruct (tables w0 !! fq cfg t) as [tbl|]; simpl; [|done].
  destruct (run_query svc (tables w0) (analysis_query cfg t))
    as [[sch rs]|e] eqn:E; simpl; [|done].
  rewrite E. intros [= <- <-]. exists tbl, sch, rs. simpl.
  rewrite <- Hb, <- Hq, <- app_assoc. done.
Qed.

(** The analysis step on a table that does not exist. *)
Lemma run_analysis_missing (t : string) (w : World) :
  tables w !! fq cfg t = None ->
  snd (run_analysis cfg svc t w) = Raise (ValueError (msg_table_not_found t))
  /\ tables (fst (run_analysis cfg svc t w)) = tables w
  /\ blobs (fst (run_analysis cfg svc t w)) = blobs w
  /\ queries (fst (run_analysis cfg svc t w)) = queries w
  /\ published (fst (run_analysis cfg svc t w)) = published w
  /\ load_jobs (fst (run_analysis cfg svc t w)) = load_jobs w.
Proof.
  intros Hnone. unfold run_analysis, get_table. unfold_M.
  destruct (ensure_dataset_exists_frame (BIGQUERY_DATASET cfg) w)
    as (Hr & Ht & Hb & Hl & Hq & _ & Hp).
  destruct (ensure_dataset_exists (BIGQUERY_DATASET cfg) w) as [w0 r0].
  simpl in *. subst r0. rewrite Ht, Hnone. simpl. done.
Qed.

End IndexFacts.

Section IndexRouteFacts.

Variable cfg : Config.
Variable svc : Services.

Lemma index_invalid (filename content : string) (e : exn) (w : World) :
  filename ≠ "" ->
  validate_table_name (derived_table_name filename) = Raise e ->
  index cfg svc (Some (filename, content)) w
  = (w, Ok (index_error_response e)).
Proof.
  intros Hne Hv. unfold index. rewrite eqb_empty_false by done.
  unfold index_try. rewrite Hv. unfold_M. simpl. by destruct e.
Qed.

Lemma route_upload_jobs (filename content t ext : string) (w : World) :
  load_jobs (fst (route_upload cfg svc filename content t ext w)) = load_jobs w
  \/ exists fmt skip,
       load_jobs (fst (route_upload cfg svc filename content t ext w))
       = load_jobs w ++ [(fq cfg t, load_job_config fmt skip)].
Proof.
  unfold route_upload. unfold_M.
  destruct (String.eqb ext ".sql"); [by left|].
  destruct (is_in ext [".xlsx"; ".xls"]).
  - destruct (read_excel_to_csv svc content) as [csv|e]; simpl; [|by left].
    pose proof (load_to_bigquery_jobs cfg svc csv (t +:+ ".csv") t w) as H.
    by destruct (load_to_bigquery cfg svc csv (t +:+ ".csv") t w) as [w1 [|]].
  - destruct (is_in ext [".csv"; ".json"; ".parquet"]); [|by left].
    pose proof (load_to_bigquery_jobs cfg svc content filename t w) as H.
    by destruct (load_to_bigquery cfg svc content filename t w) as [w1 [|]].
Qed.

End IndexRouteFacts.

(** [index] never raises: whatever the upload, the services and the state of
    the collaborators, it answers with a response. *)
Theorem index_always_answers (cfg : Config) (svc : Services)
    (uploaded_file : option (string * string)) (w : World) :
  exists response, snd (index cfg svc uploaded_file w) = Ok response.
Proof.
  unfold index. destruct uploaded_file as [[filename content]|];
    [|by eexists].
  destruct (String.eqb filename ""); [by eexists|].
  unfold_M. destruct (index_try cfg svc filename content w) as [w1 [r|e]];
    [by eexists|].
  destruct e; by eexists.
Qed.







Section IndexOutcomeFacts.

Variable cfg : Config.
Variable svc : Services.

Lemma route_upload_early (filename content t ext : string) (w w1 : World)
    (r : Response) :
  route_upload cfg svc filename content t ext w = (w1, Ok (Some r)) ->
  status r = 400.
Proof.
  unfold route_upload. unfold_M.
  repeat (case_match; simplify_eq; simpl in * ); try done.
  all: intros; simplify_eq; done.
Qed.

Lemma index_error_response_status (e : exn) :
  status (index_error_response e) ≠ 200.
Proof. by destruct e. Qed.


Lemma append_suffix_ne (s p : string) : p ≠ "" -> s +:+ p ≠ s.
Proof.
  intros Hp H. apply (f_equal chars) in H. rewrite chars_app in H.
  apply (f_equal length) in H. rewrite length_app in H.
  destruct p; [done|]. simpl in H. lia.
Qed.


Lemma fq_inj (a b : string) : fq cfg a = fq cfg b -> a = b.
Proof. unfold fq. intros H. by repeat apply String.app_inj in H. Qed.

End IndexOutcomeFacts.



(** One call of [index] submits at most one load job, and when it submits one
    the destination is the table named by the validated derived name and the
    job replaces the table's content (WRITE_TRUNCATE, schema detected). *)
Theorem index_load_jobs (cfg : Config) (svc : Services)
    (uploaded_file : option (string * string)) (w : World) :
  load_jobs (fst (index cfg svc uploaded_file w)) = load_jobs w
  \/ exists filename content t fmt skip,
       uploaded_file = Some (filename, content)
       /\ validate_table_name (derived_table_name filename) = Ok t
       /\ load_jobs (fst (index cfg svc uploaded_file w))
          = load_jobs w
            ++ [(fq cfg t,
                 {| autodetect := true; source_format := fmt;
                    skip_leading_rows := Some skip;
                    write_disposition := Some WRITE_TRUNCATE |})].
Proof.
  destruct uploaded_file as [[filename content]|]; [|by left].
  destruct (String.eqb filename "") eqn:E.
  { left. unfold index. by rewrite E. }
  apply String.eqb_neq in E.
  destruct (validate_table_name (derived_table_name filename)) as [t|e] eqn:Hv.
  2: { left. by rewrite (index_invalid cfg svc _ _ e). }
  rewrite (index_valid cfg svc _ _ t) by done.
  pose proof (route_upload_jobs cfg svc filename content t
                (lower (snd (splitext filename))) w) as Hj.
  destruct (route_upload cfg svc filename content t _ w) as [w1 [[r|]|e]];
    simpl in *.
  - destruct Hj as [Hj | (fmt & skip & Hj)];
      [by left | right; by exists filename, content, t, fmt, skip].
  - destruct (run_analysis_frame cfg svc t w1) as (Hl & _).
    destruct (run_analysis cfg svc t w1) as [w2 [r|e]]; simpl in *;
      rewrite Hl;
      (destruct Hj as [Hj | (fmt & skip & Hj)];
       [by left | right; by exists filename, content, t, fmt, skip]).
  - destruct Hj as [Hj | (fmt & skip & Hj)];
      [by left | right; by exists filename, content, t, fmt, skip].
Qed.

(** When [index] answers 200, the file had a valid derived table name, the
    response names that table, and afterwards the warehouse holds the table
    and its [_analysis] copy and the artifact store holds the analysis
    results. *)
Theorem index_success_means_loaded (cfg : Config) (svc : Services)
    (uploaded_file : option (string * string)) (w : World)
    (response : Response) :
  snd (index cfg svc uploaded_file w) = Ok response ->
  status response = 200 ->
  exists filename content t,
    uploaded_file = Some (filename, content)
    /\ validate_table_name (derived_table_name filename) = Ok t
    /\ response = {| status := 200; body := JsonUploaded filename t |}
    /\ is_Some (tables (fst (index cfg svc uploaded_file w)) !! fq cfg t)
    /\ is_Some (tables (fst (index cfg svc uploaded_file w))
                  !! fq cfg (t +:+ "_analysis"))
    /\ is_Some (blobs (fst (index cfg svc uploaded_file w))
                  !! (BUCKET_NAME cfg,
                      "analysis_results/" +:+ t +:+ "_results.csv")).
Proof.
  destruct uploaded_file as [[filename content]|];
    [|intros [= <-]; discriminate].
  destruct (String.eqb filename "") eqn:E.
  { unfold index. rewrite E. intros [= <-]. discriminate. }
  apply String.eqb_neq in E.
  destruct (validate_table_name (derived_table_name filename)) as [t|e] eqn:Hv.
  2: { rewrite (index_invalid cfg svc _ _ e) by done.
       intros [= <-] H. by apply index_error_response_status in H. }
  rewrite (index_valid cfg svc _ _ t) by done.
  destruct (route_upload cfg svc filename content t _ w)
    as [w1 [[r|]|e]] eqn:Hr; simpl.
  - intros [= <-] H. apply route_upload_early in Hr. congruence.
  - destruct (run_analysis cfg svc t w1) as [w2 [r|e]] eqn:Ha; simpl.
    + intros [= <-] _. exists filename, content, t.
      apply run_analysis_Ok in Ha
        as (tbl & sch & rs & Ht & _ & _ & Ht2 & Hb2 & _).
      rewrite Ht2, Hb2. repeat split; try done.
      * destruct (decide (fq cfg (t +:+ "_analysis") = fq cfg t)) as [-> | Hne].
        -- rewrite lookup_insert_eq. by eexists.
        -- rewrite lookup_insert_ne by done. by eexists.
      * rewrite lookup_insert_eq. by eexists.
      * rewrite lookup_insert_eq. by eexists.
    + intros [= <-] H. by apply index_error_response_status in H.
  - intros [= <-] H. by apply index_error_response_status in H.
Qed.

Lemma index_success_means_loaded_witness :
  exists filename content t,
    Some ("Sales 2024.csv", "a,b" +:+ newline +:+ "1,2")
    = Some (filename, content)
    /\ validate_table_name (derived_table_name filename) = Ok t
    /\ {| status := 200; body := JsonUploaded "Sales 2024.csv" "sales_2024" |}
       = {| status := 200; body := JsonUploaded filename t |}
    /\ is_Some (tables
                  (fst (index default_config sample_services
                          (Some ("Sales 2024.csv",
                                 "a,b" +:+ newline +:+ "1,2")) empty_world))
                  !! fq default_config t)
    /\ is_Some (tables
                  (fst (index default_config sample_services
                          (Some ("Sales 2024.csv",
                                 "a,b" +:+ newline +:+ "1,2")) empty_world))
                  !! fq default_config (t +:+ "_analysis"))
    /\ is_Some (blobs
                  (fst (index default_config sample_services
                          (Some ("Sales 2024.csv",
                                 "a,b" +:+ newline +:+ "1,2")) empty_world))
                  !! (BUCKET_NAME default_config,
                      "analysis_results/" +:+ t +:+ "_results.csv")).
Proof.
  exact (index_success_means_loaded default_config sample_services
           (Some ("Sales 2024.csv", "a,b" +:+ newline +:+ "1,2")) empty_world
           {| status := 200; body := JsonUploaded "Sales 2024.csv" "sales_2024" |}
           eq_refl eq_refl).
Defined.

(** ** From the upload to the worker *)



(** ** The analysis step and the downloads *)

(** [run_analysis] on a table the warehouse does not hold raises
    "BigQuery table ... not found." before any query is submitted; tables,
    artifacts and queries are as they were. *)
Theorem run_analysis_rejects_missing_table (cfg : Config) (svc : Services)
    (table_name : string) (w : World) :
  tables w !! fq cfg table_name = None ->
  snd (run_analysis cfg svc table_name w)
  = Raise (ValueError ("BigQuery table " +:+ table_name +:+ " not found."))
  /\ tables (fst (run_analysis cfg svc table_name w)) = tables w
  /\ blobs (fst (run_analysis cfg svc table_name w)) = blobs w
  /\ queries (fst (run_analysis cfg svc table_name w)) = queries w.
Proof.
  intros Hnone.
  destruct (run_analysis_missing cfg svc table_name w Hnone)
    as (Hr & Ht & Hb & Hq & _).
  done.
Qed.

Lemma run_analysis_rejects_missing_table_witness :
  snd (run_analysis default_config sample_services "sales" finance_world)
  = Raise (ValueError ("BigQuery table " +:+ "sales" +:+ " not found."))
  /\ tables (fst (run_analysis default_config sample_services "sales"
                    finance_world))
     = tables finance_world
  /\ blobs (fst (run_analysis default_config sample_services "sales"
                   finance_world))
     = blobs finance_world
  /\ queries (fst (run_analysis default_config sample_services "sales"
                     finance_world))
     = queries finance_world.
Proof.
  exact (run_analysis_rejects_missing_table default_config sample_services
           "sales" finance_world eq_refl).
Defined.

(** A successful [run_analysis] returns the name it was given, leaves the
    analysed table itself untouched, writes the query result to the
    [_analysis] table (replacing it) and its CSV text to
    [analysis_results/<table>_results.csv], and submits the 10-row query
    twice. *)
Theorem run_analysis_effect (cfg : Config) (svc : Services)
    (table_name r : string) (w w' : World) :
  run_analysis cfg svc table_name w = (w', Ok r) ->
  r = table_name
  /\ tables w' !! fq cfg table_name = tables w !! fq cfg table_name
  /\ is_Some (tables w !! fq cfg table_name)
  /\ exists sch rs,
       run_query svc (tables w) (analysis_query cfg table_name) = Ok (sch, rs)
       /\ tables w' !! fq cfg (table_name +:+ "_analysis")
          = Some {| schema := sch; view_query := None; rows := rs |}
       /\ blobs w' !! (BUCKET_NAME cfg,
                       "analysis_results/" +:+ table_name +:+ "_results.csv")
          = Some (csv_text svc (map name sch) rs)
       /\ queries w'
          = queries w
            ++ [analysis_query cfg table_name; analysis_query cfg table_name].
Proof.
  intros (tbl & sch & rs & Ht & Hq & -> & Ht' & Hb' & Hq')%run_analysis_Ok.
  split; [done|]. split; [|split; [by eexists|]].
  - rewrite Ht', lookup_insert_ne; [done|].
    intros H%fq_inj. by apply append_suffix_ne in H.
  - exists sch, rs. rewrite Ht', Hb', !lookup_insert_eq. done.
Qed.

Lemma run_analysis_effect_witness :
  "finance_data" = "finance_data"
  /\ tables (fst (run_analysis default_config sample_services "finance_data"
                    finance_world))
       !! fq default_config "finance_data"
     = tables finance_world !! fq default_config "finance_data"
  /\ is_Some (tables finance_world !! fq default_config "finance_data")
  /\ exists sch rs,
       run_query sample_services (tables finance_world)
         (analysis_query default_config "finance_data") = Ok (sch, rs)
       /\ tables (fst (run_analysis default_config sample_services
                         "finance_data" finance_world))
            !! fq default_config ("finance_data" +:+ "_analysis")
          = Some {| schema := sch; view_query := None; rows := rs |}
       /\ blobs (fst (run_analysis default_config sample_services
                        "finance_data" finance_world))
            !! (BUCKET_NAME default_config,
                "analysis_results/" +:+ "finance_data" +:+ "_results.csv")
          = Some (csv_text sample_services (map name sch) rs)
       /\ queries (fst (run_analysis default_config sample_services
                          "finance_data" finance_world))
          = queries finance_world
            ++ [analysis_query default_config "finance_data";
                analysis_query default_config "finance_data"].
Proof.
  exact (run_analysis_effect default_config sample_services
           "finance_data" "finance_data" finance_world
           (fst (run_analysis default_config sample_services "finance_data"
                   finance_world))
           eq_refl).
Defined.

(** After a successful [run_analysis], [download_file] on
    [<table>_results.csv] serves the CSV text of the query result; and
    [download_file] answers 404 exactly when the artifact store has nothing
    under [analysis_results/<filename>], changing nothing either way. *)
Theorem download_file_serves_analysis_results (cfg : Config) (svc : Services)
    (table_name r filename : string) (w w' : World) :
  run_analysis cfg svc table_name w = (w', Ok r) ->
  (exists sch rs,
     run_query svc (tables w) (analysis_query cfg table_name) = Ok (sch, rs)
     /\ download_file cfg (table_name +:+ "_results.csv") w'
        = (w', Ok {| status := 200;
                     body := Attachment (table_name +:+ "_results.csv")
                               (csv_text svc (map name sch) rs) |}))
  /\ fst (download_file cfg filename w') = w'
  /\ (blobs w' !! (BUCKET_NAME cfg, "analysis_results/" +:+ filename) = None
      <-> exists response,
            snd (download_file cfg filename w') = Ok response
            /\ status response = 404).
Proof.
  intros (tbl & sch & rs & _ & Hq & _ & _ & Hb' & _)%run_analysis_Ok.
  split; [|split].
  - exists sch, rs. split; [done|]. unfold download_file.
    by rewrite Hb', lookup_insert_eq.
  - unfold download_file. by destruct (blobs w' !! _).
  - unfold download_file. destruct (blobs w' !! _); simpl; split.
    + done.
    + intros (resp & [= <-] & H). discriminate.
    + intros _. by eexists.
    + done.
Qed.

Lemma download_file_serves_analysis_results_witness :
  exists sch rs,
    run_query sample_services (tables finance_world)
      (analysis_query default_config "finance_data") = Ok (sch, rs)
    /\ download_file default_config ("finance_data" +:+ "_results.csv")
         (fst (run_analysis default_config sample_services "finance_data"
                 finance_world))
       = (fst (run_analysis default_config sample_services "finance_data"
                 finance_world),
          Ok {| status := 200;
                body := Attachment ("finance_data" +:+ "_results.csv")
                          (csv_text sample_services (map name sch) rs) |}).
Proof.
  exact (proj1 (download_file_serves_analysis_results default_config
                  sample_services "finance_data" "finance_data" "x"
                  finance_world
                  (fst (run_analysis default_config sample_services
                          "finance_data" finance_world))
                  eq_refl)).
Defined.

(** [download_bq] for a table the warehouse does not hold answers 400 with
    "BigQuery table ... not found." and submits no query; without a table
    parameter it answers 400 and does nothing. *)
Theorem download_bq_missing_table (cfg : Config) (svc : Services)
    (table_name : string) (w : World) :
  table_name ≠ "" ->
  tables w !! fq cfg table_name = None ->
  snd (download_bq cfg svc (Some table_name) w)
  = Ok {| status := 400;
          body := Text ("BigQuery table " +:+ table_name +:+ " not found.") |}
  /\ queries (fst (download_bq cfg svc (Some table_name) w)) = queries w
  /\ tables (fst (download_bq cfg svc (Some table_name) w)) = tables w
  /\ download_bq cfg svc None w
     = (w, Ok {| status := 400; body := Text "Missing ?table parameter." |})
  /\ download_bq cfg svc (Some "") w
     = (w, Ok {| status := 400; body := Text "Missing ?table parameter." |}).
Proof.
  intros Hne Hnone. unfold download_bq. rewrite eqb_empty_false by done.
  destruct (run_analysis_missing cfg svc table_name w Hnone)
    as (Hr & Ht & _ & Hq & _).
  destruct (run_analysis cfg svc table_name w) as [w1 r1].
  simpl in *. subst r1. done.
Qed.

Lemma download_bq_missing_table_witness :
  snd (download_bq default_config sample_services (Some "sales") finance_world)
  = Ok {| status := 400;
          body := Text ("BigQuery table " +:+ "sales" +:+ " not found.") |}
  /\ queries (fst (download_bq default_config sample_services (Some "sales")
                     finance_world))
     = queries finance_world
  /\ tables (fst (download_bq default_config sample_services (Some "sales")
                    finance_world))
     = tables finance_world
  /\ download_bq default_config sample_services None finance_world
     = (finance_world,
        Ok {| status := 400; body := Text "Missing ?table parameter." |})
  /\ download_bq default_config sample_services (Some "") finance_world
     = (finance_world,
        Ok {| status := 400; body := Text "Missing ?table parameter." |}).
Proof.
  apply (download_bq_missing_table default_config sample_services "sales"
           finance_world).
  - discriminate.
  - reflexivity.
Defined.

(** ** The report routes *)




(** ** Views *)

Section ViewFacts.

Variable cfg : Config.
Variable svc : Services.

Lemma publish_loop_app (pre rest : list (string * ReportMeta))
    (v table_fq : string) (cols : ColumnRoleMap)
    (created : list (string * string)) (w : World) :
  publish_loop cfg svc (pre ++ rest) v table_fq cols created w
  = match publish_loop cfg svc pre v table_fq cols created w with
    | (w1, Ok m1) => publish_loop cfg svc rest v table_fq cols m1 w1
    | (w1, Raise e) => (w1, Raise e)
    end.
Proof.
  revert created w. induction pre as [|p pre IH]; intros created w; [done|].
  rewrite <- app_comm_cons, !publish_loop_cons.
  destruct (report_accepted cfg svc v table_fq cols p); [|done].
  apply IH.
Qed.

End ViewFacts.

(** [_create_or_replace_view], when the warehouse accepts the definition,
    leaves under the view's id a resource whose query is the given SQL: an
    existing resource keeps its schema and rows and is updated, an absent one
    is created; every other table and view is untouched.  When the warehouse
    rejects the definition the call raises and changes nothing. *)
Theorem create_or_replace_view_effect (svc : Services)
    (view_id sql_text : string) (w : World) :
  (accepts_view svc view_id sql_text = true ->
   exists t,
     snd (_create_or_replace_view svc view_id sql_text w) = Ok t
     /\ tables (fst (_create_or_replace_view svc view_id sql_text w)) !! view_id
        = Some t
     /\ view_query t = Some sql_text
     /\ (forall old, tables w !! view_id = Some old ->
           schema t = schema old /\ rows t = rows old
           /\ view_ops (fst (_create_or_replace_view svc view_id sql_text w))
              = view_ops w ++ [UpdateView view_id sql_text])
     /\ (tables w !! view_id = None ->
         view_ops (fst (_create_or_replace_view svc view_id sql_text w))
         = view_ops w ++ [CreateView view_id sql_text])
     /\ forall other, other ≠ view_id ->
          tables (fst (_create_or_replace_view svc view_id sql_text w)) !! other
          = tables w !! other)
  /\ (accepts_view svc view_id sql_text = false ->
      _create_or_replace_view svc view_id sql_text w
      = (w, Raise (BadRequest ("Invalid view query for " +:+ view_id)))).
Proof.
  rewrite _create_or_replace_view_spec. split; intros ->; [|done].
  eexists. split; [done|]. simpl. rewrite lookup_insert_eq.
  split; [done|]. split; [by destruct (tables w !! view_id)|].
  split; [|split].
  - intros old ->. done.
  - intros ->. done.
  - intros other Hne. by rewrite lookup_insert_ne.
Qed.

(** When the table does not exist, or a required column role does not
    resolve, [publish_looker_views_for_table] raises before its loop: no view
    is created or updated and no table is changed. *)
Theorem publish_fails_before_touching_views (cfg : Config) (svc : Services)
    (table_name : string) (w : World) :
  is_ok (validate_table_name table_name) = true ->
  (tables w !! fq cfg table_name = None
   \/ exists tbl e, tables w !! fq cfg table_name = Some tbl
                    /\ detect_in_schema (schema tbl) = Raise e) ->
  (exists e,
     snd (publish_looker_views_for_table cfg svc table_name w) = Raise e
     /\ (tables w !! fq cfg table_name = None ->
         e = NotFound ("Not found: Table " +:+ fq cfg table_name))
     /\ (forall tbl, tables w !! fq cfg table_name = Some tbl ->
           detect_in_schema (schema tbl) = Raise e))
  /\ tables (fst (publish_looker_views_for_table cfg svc table_name w))
     = tables w
  /\ view_ops (fst (publish_looker_views_for_table cfg svc table_name w))
     = view_ops w.
Proof.
  intros Hv Hcase. rewrite publish_unfold. cbv zeta.
  destruct (validate_table_name table_name) as [v|] eqn:E; [|done].
  apply validate_table_name_ok in E as [-> _].
  destruct (ensure_dataset_exists_frame (BIGQUERY_DATASET cfg) w)
    as (_ & Ht & _ & _ & _ & Hvo & _).
  rewrite Ht.
  destruct Hcase as [Hnone | (tbl & e & Hsome & Hd)].
  - rewrite Hnone. simpl. split; [|done].
    eexists. split; [done|]. split; [done | intros ? [=]].
  - rewrite Hsome, Hd. simpl. split; [|done].
    exists e. split; [done|]. split; [intros [=] | by intros ? [= <-]].
Qed.

Lemma publish_fails_before_touching_views_witness :
  (exists e,
     snd (publish_looker_views_for_table default_config sample_services
            "sales" finance_world) = Raise e
     /\ (tables finance_world !! fq default_config "sales" = None ->
         e = NotFound ("Not found: Table " +:+ fq default_config "sales"))
     /\ (forall tbl, tables finance_world !! fq default_config "sales"
                     = Some tbl ->
           detect_in_schema (schema tbl) = Raise e))
  /\ tables (fst (publish_looker_views_for_table default_config
                    sample_services "sales" finance_world))
     = tables finance_world
  /\ view_ops (fst (publish_looker_views_for_table default_config
                      sample_services "sales" finance_world))
     = view_ops finance_world.
Proof.
  apply (publish_fails_before_touching_views default_config sample_services
           "sales" finance_world).
  - reflexivity.
  - left. reflexivity.
Defined.

(** When the warehouse rejects the view of one report, the publishing loop
    raises that report's error, but the views of the reports before it have
    already been written and stay in the warehouse with their SQL. *)
Theorem publish_abort_leaves_earlier_views (cfg : Config) (svc : Services)
    (pre post : list (string * ReportMeta)) (p : string * ReportMeta)
    (v table_fq : string) (cols : ColumnRoleMap)
    (created : list (string * string)) (w : World) :
  forallb (report_accepted cfg svc v table_fq cols) pre = true ->
  report_accepted cfg svc v table_fq cols p = false ->
  NoDup (map (fun q => view_fq cfg v (fst q)) pre) ->
  snd (publish_loop cfg svc (pre ++ p :: post) v table_fq cols created w)
  = Raise (report_error cfg v table_fq cols p)
  /\ forall q, q ∈ pre ->
       exists tb,
         tables (fst (publish_loop cfg svc (pre ++ p :: post) v table_fq cols
                        created w))
           !! view_fq cfg v (fst q) = Some tb
         /\ view_query tb = Some (rendered table_fq cols q).
Proof.
  intros Hpre Hp Hnd. rewrite publish_loop_app.
  destruct (publish_loop cfg svc pre v table_fq cols created w)
    as [w1 [m1|e]] eqn:Hrun.
  - rewrite publish_loop_cons, Hp. simpl. split; [done|].
    destruct (publish_loop_tables cfg svc _ _ _ _ _ _ _ _ Hrun)
      as (_ & _ & _ & Hviews).
    by apply Hviews.
  - exfalso.
    destruct (publish_loop_result cfg svc pre v table_fq cols created w)
      as [[_ Hr] | (q & Hq & Ha & _)].
    + rewrite Hrun in Hr. discriminate.
    + apply list_elem_of_In in Hq.
      pose proof (proj1 (forallb_forall _ _) Hpre q Hq). congruence.
Qed.

Lemma publish_abort_leaves_earlier_views_witness :
  snd (publish_looker_views_for_table default_config
         (rejecting_services
            (view_fq default_config "finance_data" "monthly_trend"))
         "finance_data" finance_world)
  = Raise (BadRequest ("Invalid view query for "
                       +:+ view_fq default_config "finance_data"
                             "monthly_trend"))
  /\ is_Some
       (tables
          (fst (publish_looker_views_for_table default_config
                  (rejecting_services
                     (view_fq default_config "finance_data" "monthly_trend"))
                  "finance_data" finance_world))
          !! view_fq default_config "finance_data" "dept_totals").
Proof.
  pose proof (publish_abort_leaves_earlier_views default_config
                (rejecting_services
                   (view_fq default_config "finance_data" "monthly_trend"))
                (take 1 REPORTS) (drop 2 REPORTS)
                ("monthly_trend", default {| label := ""; sql := "" |}
                                    (snd <$> REPORTS !! 1))
                "finance_data" (fq default_config "finance_data")
                {| department := Some "Dept"; amount := Some "amt";
                   date := Some "txn_date"; expense_type := None |}
                [] finance_world eq_refl eq_refl) as H.
  destruct H as [Hr Hv].
  { apply NoDup_singleton. }
  split.
  - exact Hr.
  - destruct (Hv ("dept_totals", default {| label := ""; sql := "" |}
                                   (snd <$> REPORTS !! 0)))
      as (tb & Htb & _); [by left|].
    exists tb. exact Htb.
Defined.

(** Every template of the catalog renders for every table id and every
    resolved column map, whatever characters the names contain; and a missing
    (or empty) expense type is rendered as the literal NULL. *)
Theorem catalog_templates_always_render (table_fq : string)
    (cols : ColumnRoleMap) (template : string) :
  Forall (fun p => exists sql_text,
                     render (sql (snd p)) table_fq cols = Ok sql_text) REPORTS
  /\ render template table_fq
       {| department := department cols; amount := amount cols;
          date := date cols; expense_type := None |}
     = render template table_fq
         {| department := department cols; amount := amount cols;
            date := date cols; expense_type := Some "NULL" |}
  /\ render template table_fq
       {| department := department cols; amount := amount cols;
          date := date cols; expense_type := Some "" |}
     = render template table_fq
         {| department := department cols; amount := amount cols;
            date := date cols; expense_type := Some "NULL" |}.
Proof.
  split; [|done]. apply Forall_forall. intros p Hp.
  pose proof (REPORTS_render table_fq cols p Hp) as H.
  destruct (render _ _ _); [by eexists | done].
Qed.

(** ** The request shell *)

Section ShellFacts.

Lemma split_once_prefix (email : list ascii) :
  split_once colon (chars iap_prefix ++ email) !! 1 = Some email.
Proof. reflexivity. Qed.

Lemma startswith_true (s prefix : string) :
  startswith s prefix = true <-> exists rest, s = prefix +:+ rest.
Proof.
  unfold startswith. rewrite bool_decide_eq_true. split.
  - intros [k Hk]. exists (str k). apply chars_inj.
    by rewrite chars_app, chars_str.
  - intros [rest ->]. exists (chars rest). apply chars_app.
Qed.

Lemma read_iap_identity_prefixed (headers : gmap string string)
    (email : string) :
  headers !! "X-Goog-Authenticated-User-Email" = Some (iap_prefix +:+ email) ->
  read_iap_identity headers = Some (Some email).
Proof.
  intros Hh. unfold read_iap_identity. rewrite Hh.
  cbn [default from_option id]. unfold id.
  assert (startswith (iap_prefix +:+ email) iap_prefix = true) as ->
    by (apply startswith_true; by eexists).
  rewrite chars_app, split_once_prefix. simpl. by rewrite str_chars.
Qed.

End ShellFacts.

(** [read_iap_identity] recovers the e-mail that follows the prefix
    [accounts.google.com:], colons inside it included; a header that is
    absent or does not start with the prefix gives no identity; and the
    [split(":", 1)[1]] it uses is never out of range. *)
Theorem read_iap_identity_round_trip (headers : gmap string string)
    (email : string) :
  read_iap_identity
    (<["X-Goog-Authenticated-User-Email" := iap_prefix +:+ email]> headers)
  = Some (Some email)
  /\ (startswith (default "" (headers !! "X-Goog-Authenticated-User-Email"))
        iap_prefix = false ->
      read_iap_identity headers = Some None)
  /\ is_Some (read_iap_identity headers).
Proof.
  split; [|split].
  - apply read_iap_identity_prefixed. apply lookup_insert_eq.
  - intros H. unfold read_iap_identity. by rewrite H.
  - unfold read_iap_identity.
    destruct (startswith _ iap_prefix) eqn:E; [|by eexists].
    apply startswith_true in E as [rest E]. rewrite E.
    rewrite chars_app, split_once_prefix. by eexists.
Qed.

(** A POST to [/] without an identity (no header, a header without the
    prefix, or the prefix alone) is answered 401 and consumes nothing: the
    rate-limit storage and the collaborators are unchanged.  With an identity
    the request goes on to the rate limiter. *)
Theorem index_endpoint_requires_user (Time : Type)
    (within_window : Time -> Time -> nat -> bool) (cfg : Config)
    (svc : Services) (req : Request) (now : Time) (email : string)
    (state : gmap string (list Time) * World) :
  (startswith (default "" (req_headers req
                             !! "X-Goog-Authenticated-User-Email"))
     iap_prefix = false
   \/ req_headers req !! "X-Goog-Authenticated-User-Email" = Some iap_prefix ->
   index_endpoint Time within_window cfg svc req now state
   = (state, Some (Ok unauthorized)))
  /\ (email ≠ "" ->
      req_headers req !! "X-Goog-Authenticated-User-Email"
      = Some (iap_prefix +:+ email) ->
      index_endpoint Time within_window cfg svc req now state
      = (fst (rate_limit Time within_window 5 60 (client_ip_of req) now
                (index cfg svc (req_file req)) state),
         Some (snd (rate_limit Time within_window 5 60 (client_ip_of req) now
                      (index cfg svc (req_file req)) state)))).
Proof.
  unfold index_endpoint. split.
  - intros [H | H].
    + unfold read_iap_identity. by rewrite H.
    + rewrite (read_iap_identity_prefixed _ "");
        [done | by rewrite H].
  - intros Hne Hh. rewrite (read_iap_identity_prefixed _ email Hh).
    simpl. rewrite eqb_empty_false by done.
    by destruct (rate_limit _ _ _ _ _ _ _ _) as [s' r].
Qed.

(** The rate limiter.  A request that finds [max_requests] or more recorded
    times still inside the window is answered 429: the handler does not run
    and the request is not recorded.  Otherwise the handler runs and the time
    is recorded after the kept ones.  Either way other clients' records are
    untouched, and a client's record that held at most [max_requests] times
    still does. *)
Theorem rate_limit_behaviour (Time : Type)
    (within_window : Time -> Time -> nat -> bool)
    (max_requests window_seconds : nat) (client_ip : string) (now : Time)
    (f : M Response) (storage : gmap string (list Time)) (w : World) :
  let kept := List.filter (fun t => within_window now t window_seconds)
                (default [] (storage !! client_ip)) in
  let out := rate_limit Time within_window max_requests window_seconds
               client_ip now f (storage, w) in
  (max_requests <= length kept ->
   out = ((<[client_ip := kept]> storage, w), Ok rate_limit_exceeded))
  /\ (length kept < max_requests ->
      out = ((<[client_ip := kept ++ [now]]> storage, fst (f w)), snd (f w)))
  /\ (forall other, other ≠ client_ip ->
        fst (fst out) !! other = storage !! other)
  /\ (length (default [] (storage !! client_ip)) <= max_requests ->
      length (default [] (fst (fst out) !! client_ip)) <= max_requests)
  /\ (kept = [] -> 1 <= max_requests -> snd out = snd (f w)).
Proof.
  intros kept out. subst out. unfold rate_limit. fold kept.
  assert (length kept <= length (default [] (storage !! client_ip))) as Hle
    by apply List.filter_length_le.
  destruct (max_requests <=? length kept) eqn:E.
  - apply Nat.leb_le in E. split; [done|]. split; [lia|].
    split; [|split].
    + intros other Hne. simpl. by rewrite lookup_insert_ne.
    + intros Hb. simpl. rewrite lookup_insert_eq. simpl. lia.
    + intros Hk. rewrite Hk in E. simpl in E. lia.
  - apply Nat.leb_gt in E. split; [lia|].
    destruct (f w) as [w' r] eqn:Hf. simpl.
    split; [intros _; by rewrite insert_insert_eq|]. split; [|split].
    + intros other Hne. by rewrite !lookup_insert_ne.
    + intros _. rewrite lookup_insert_eq. simpl. rewrite length_app. simpl.
      lia.
    + done.
Qed.

(** ** The storage-triggered function *)


(** ** Loading *)

Section SplitFacts.



End SplitFacts.

(** [load_to_bigquery] on a file name whose lower-cased extension is none of
    [.xls], [.xlsx], [.csv], [.json], [.parquet] raises "Unsupported file
    type..." before anything is stored or loaded. *)
Theorem load_to_bigquery_rejects_unsupported_type (cfg : Config)
    (svc : Services) (content filename table_name : string) (w : World) :
  is_in (lower (snd (splitext filename)))
    [".xls"; ".xlsx"; ".csv"; ".json"; ".parquet"] = false ->
  snd (load_to_bigquery cfg svc content filename table_name w)
  = Raise (ValueError
             "Unsupported file type. Use CSV, Excel, JSON, or Parquet.")
  /\ blobs (fst (load_to_bigquery cfg svc content filename table_name w))
     = blobs w
  /\ load_jobs (fst (load_to_bigquery cfg svc content filename table_name w))
     = load_jobs w
  /\ tables (fst (load_to_bigquery cfg svc content filename table_name w))
     = tables w.
Proof.
  intros Hext. unfold is_in in Hext. simpl in Hext.
  repeat (apply orb_false_iff in Hext as [? Hext]).
  unfold load_to_bigquery. unfold_M.
  destruct (ensure_dataset_exists_frame (BIGQUERY_DATASET cfg) w)
    as (Hr & Ht & Hb & Hl & _).
  destruct (ensure_dataset_exists (BIGQUERY_DATASET cfg) w) as [w0 r0].
  simpl in Hr, Ht, Hb, Hl. subst r0. unfold is_in. simpl.
  repeat match goal with H : String.eqb _ _ = false |- _ =>
           rewrite H; clear H end.
  simpl. done.
Qed.

Lemma load_to_bigquery_rejects_unsupported_type_witness :
  snd (load_to_bigquery default_config sample_services "CREATE TABLE t;"
         "dump.sql" "dump" finance_world)
  = Raise (ValueError
             "Unsupported file type. Use CSV, Excel, JSON, or Parquet.")
  /\ blobs (fst (load_to_bigquery default_config sample_services
                   "CREATE TABLE t;" "dump.sql" "dump" finance_world))
     = blobs finance_world
  /\ load_jobs (fst (load_to_bigquery default_config sample_services
                       "CREATE TABLE t;" "dump.sql" "dump" finance_world))
     = load_jobs finance_world
  /\ tables (fst (load_to_bigquery default_config sample_services
                    "CREATE TABLE t;" "dump.sql" "dump" finance_world))
     = tables finance_world.
Proof.
  exact (load_to_bigquery_rejects_unsupported_type default_config
           sample_services "CREATE TABLE t;" "dump.sql" "dump" finance_world
           eq_refl).
Defined.


